(** * Audio ingestion and feature extraction of [API/streamlit_app.py]

    A shallow embedding of the helper functions [extract_audio_metadata],
    [process_audio_file], [force_real_result] and of the record branch of
    [main], together with the properties of the pipeline they implement,
    followed by [render_results] and the whole of [main] as a script that
    is run once per interaction over a session state.

    Python exceptions are explicit outcomes, the filesystem and the calls
    made to external libraries are threaded through a small state monad,
    and the libraries themselves (soundfile, librosa, the deepfake
    classifier, the operating system) are the fields of a record of
    collaborators over which every statement is quantified.

    Floating-point samples and features are idealised as rationals, with
    [NaN] as a separate value where the code produces it.  Paths are
    compared by where they lead, without symbolic links.  The external
    libraries read the filesystem and do not write to it, [shutil.rmtree]
    deletes what it is asked to delete, and the [print] calls of
    [process_audio_file] are left out. *)

From Stdlib Require Import ZArith QArith Qabs List String Ascii Strings.Byte Lia.
From stdpp Require Import gmap strings.
Import ListNotations.

Local Open Scope Z_scope.

(** ** Outcomes of Python computations *)

(** An instance of a subclass of Python's [Exception]: class name and text. *)
Inductive exn : Type :=
  Exception (cls : string) (msg : string).

Inductive Outcome (A : Type) : Type :=
| Returned (a : A)
| Raised (e : exn).
Arguments Returned {A} a.
Arguments Raised {A} e.

(** ** Values *)

(** A Python float that may be [float("nan")]. *)
Inductive pyfloat : Type :=
| NaN
| Fin (q : Q).

(** What [sf.read(..., always_2d=False)] yields: a vector of frames for a
    one-channel file, a frames-by-channels matrix otherwise. *)
Inductive ndarray : Type :=
| Arr1 (v : list Q)
| Arr2 (rows : list (list Q)).

Definition ndim (y : ndarray) : Z :=
  match y with Arr1 _ => 1 | Arr2 _ => 2 end.

(** The dictionary built by [extract_audio_metadata]; one field per key. *)
Record Profile : Type := mkProfile {
  samples : nat;
  sr : Z;
  duration : Q;
  avg_pitch : pyfloat;
  avg_energy : pyfloat;
  waveform : list Q
}.

(** A Streamlit [UploadedFile]: its [name] and the bytes [read()] gives. *)
Record UploadedFile : Type := mkUploadedFile {
  name : string;
  content : list byte
}.

(** ** The filesystem and the log of external calls *)

Inductive node : Type :=
| Dir
| File (bytes : list byte).

(** The filesystem, by the path strings the program used; two strings
    may lead to the same place, and [resolve] below tells where. *)
Abbreviation FS := (gmap string node).

Inductive event : Type :=
| EvRead (path : string)
| EvResample (orig_sr target_sr : Z)
| EvYin
| EvRms
| EvClassify (path : string).

Record World : Type := mkWorld {
  fs : FS;
  calls : list event
}.

Definition is_classify (ev : event) : bool :=
  match ev with EvClassify _ => true | _ => false end.

(** ** Paths *)

Definition sep : string := "/".

Fixpoint endswith_sep (s : string) : bool :=
  match s with
  | EmptyString => false
  | String c EmptyString => Ascii.eqb c "/"
  | String _ rest => endswith_sep rest
  end.

(** [os.path.join(a, b)] of posixpath, for two arguments. *)
Definition os_path_join (a b : string) : string :=
  if String.prefix sep b then b
  else if (String.eqb a EmptyString || endswith_sep a)%bool then String.append a b
  else String.append a (String.append sep b).

(** [path.split("/")] *)
Fixpoint split_sep (path : string) : list string :=
  match path with
  | EmptyString => [EmptyString]
  | String c rest =>
      if Ascii.eqb c "/" then EmptyString :: split_sep rest
      else match split_sep rest with
           | comp :: comps => String c comp :: comps
           | [] => [String c EmptyString]
           end
  end.

(** The loop of [posixpath.normpath] over the components; [kept] is
    [new_comps] with its last element first. *)
Fixpoint norm_comps (rooted : bool) (comps kept : list string) : list string :=
  match comps with
  | [] => rev kept
  | comp :: rest =>
      if (String.eqb comp "" || String.eqb comp ".")%bool
      then norm_comps rooted rest kept
      else if negb (String.eqb comp "..") then norm_comps rooted rest (comp :: kept)
      else match kept with
           | [] => if rooted then norm_comps rooted rest []
                   else norm_comps rooted rest [comp]
           | last :: before =>
               if String.eqb last ".." then norm_comps rooted rest (comp :: kept)
               else norm_comps rooted rest before
           end
  end.

(** Where a path leads when none of its components is a symbolic link:
    [.] and empty components are dropped and [..] steps back, as
    [posixpath.normpath] computes it. *)
Definition resolve (path : string) : string :=
  if String.eqb path "" then "."
  else
    let initial_slashes :=
      if String.prefix "/" path then
        if (String.prefix "//" path && negb (String.prefix "///" path))%bool
        then "//" else "/"
      else "" in
    let comps := norm_comps (String.prefix "/" path) (split_sep path) [] in
    let joined := String.append initial_slashes (String.concat "/" comps) in
    if String.eqb joined "" then "." else joined.

(** [p] leads to the directory [d] itself or to something below it. *)
Definition inside (d p : string) : bool :=
  let below := if endswith_sep (resolve d) then resolve d
               else String.append (resolve d) sep in
  (String.eqb (resolve p) (resolve d) || String.prefix below (resolve p))%bool.

(** [shutil.rmtree(d, ignore_errors=True)]: the tree rooted at [d] goes,
    and what was written next to it through a path that climbs out of [d]
    stays; a missing [d] is one of the ignored errors. *)
Definition rmtree_fs (d : string) (m : FS) : FS :=
  filter (fun kv => inside d (fst kv) = false) m.

(** ** The monad: state passing with exceptions *)

Definition M (A : Type) : Type := World -> Outcome A * World.

Definition ret {A} (a : A) : M A := fun w => (Returned a, w).

Definition raise {A} (e : exn) : M A := fun w => (Raised e, w).

Definition bind {A B} (m : M A) (k : A -> M B) : M B :=
  fun w =>
    match m w with
    | (Returned a, w') => k a w'
    | (Raised e, w') => (Raised e, w')
    end.

(** [try: m  except Exception as e: h e] *)
Definition try_except {A} (m : M A) (h : exn -> M A) : M A :=
  fun w =>
    match m w with
    | (Returned a, w') => (Returned a, w')
    | (Raised e, w') => h e w'
    end.

(** [try: m  finally: f] -- [f] runs on both exits; an exception of [f]
    replaces the pending outcome. *)
Definition try_finally {A} (m : M A) (f : M unit) : M A :=
  fun w =>
    match m w with
    | (r, w') =>
        match f w' with
        | (Returned _, w'') => (r, w'')
        | (Raised e, w'') => (Raised e, w'')
        end
    end.

Declare Scope py_scope.
Delimit Scope py_scope with py.
Notation "x <- m ;; k" := (bind m (fun x => k))
  (at level 100, m at next level, right associativity) : py_scope.
Notation "m ;;; k" := (bind m (fun _ => k))
  (at level 100, right associativity) : py_scope.

(** Lift a pure, possibly raising library call and log it. *)
Definition call {A} (ev : event) (o : Outcome A) : M A :=
  fun w => (o, mkWorld (fs w) (calls w ++ [ev])).

(** ** numpy and librosa arithmetic *)

Definition Qsum (l : list Q) : Q := fold_right Qplus 0%Q l.

Definition Qlen {A} (l : list A) : Q := inject_Z (Z.of_nat (length l)).

Definition Qmean (l : list Q) : Q := (Qsum l / Qlen l)%Q.

(** [np.mean(y, axis=1)] on a frames-by-channels matrix. *)
Definition np_mean_axis1 (rows : list (list Q)) : list Q :=
  map Qmean rows.

(** [if isinstance(y, np.ndarray) and y.ndim > 1: y = np.mean(y, axis=1)]:
    a matrix has [ndim = 2] and is averaged, a vector has [ndim = 1] and is
    left as it is. *)
Definition to_mono (y : ndarray) : list Q :=
  match y with
  | Arr1 v => v
  | Arr2 rows => np_mean_axis1 rows
  end.

Fixpoint finite_values (l : list pyfloat) : list Q :=
  match l with
  | [] => []
  | NaN :: t => finite_values t
  | Fin q :: t => q :: finite_values t
  end.

(** [float(np.nanmean(a))]: the mean of the entries that are not NaN, and
    NaN when there is none. *)
Definition np_nanmean (l : list pyfloat) : pyfloat :=
  match finite_values l with
  | [] => NaN
  | q :: qs => Fin (Qmean (q :: qs))
  end.

(** [librosa.get_duration(y=y, sr=sr)]: the number of samples over the rate. *)
Definition get_duration (y : list Q) (rate : Z) : Q :=
  (Qlen y / inject_Z rate)%Q.

(** ** The collaborators

    Everything the module imports and does not define: the operating
    system behind [tempfile] and [open], soundfile, numpy's cast, librosa
    and the classifier [infa_deepfake] of [app.src.deepfake]. *)
Record Collaborators : Type := mkCollaborators {
  (** the directory [tempfile.mkdtemp()] creates, or its [OSError] *)
  tempfile_mkdtemp : FS -> Outcome string;
  (** [None] when [open(path, "wb")] and the write go through *)
  open_wb : string -> FS -> option exn;
  (** [sf.read(path, always_2d=False)]: samples and native rate *)
  sf_read : string -> FS -> Outcome (ndarray * Z);
  (** the rounding of [np.array(y, dtype=np.float32)], per sample *)
  float32 : Q -> Q;
  (** [librosa.resample(y=y, orig_sr=.., target_sr=..)] *)
  librosa_resample : list Q -> Z -> Z -> Outcome (list Q);
  (** [librosa.yin(y, fmin=.., fmax=..)]: one estimate per frame *)
  librosa_yin : list Q -> Z -> Z -> Outcome (list pyfloat);
  (** [librosa.feature.rms(y=y)]: one value per frame *)
  librosa_feature_rms : list Q -> Outcome (list pyfloat);
  (** [infa_deepfake(path)]: status and message *)
  infa_deepfake : string -> FS -> Outcome (Z * string)
}.

Section Pipeline.

Context (env : Collaborators).

Local Open Scope py_scope.

(** *** Helper functions of the source *)

Definition target_sr : Z := 16000.

(** Lines 35-39: resample to 16k if needed. *)
Definition resample_if_needed (y : list Q) (rate : Z) : M (list Q * Z) :=
  if negb (rate =? target_sr) then
    y' <- call (EvResample rate target_sr)
               (librosa_resample env y rate target_sr) ;;
    ret (y', target_sr)
  else ret (y, rate).

(** Lines 44-48: the pitch estimate under its own [try]. *)
Definition pitch_feature (y : list Q) : M pyfloat :=
  try_except
    (pitch <- call EvYin (librosa_yin env y 50 300) ;;
     ret (np_nanmean pitch))
    (fun _ => ret NaN).

(** Lines 50-54: the energy estimate under its own [try]. *)
Definition energy_feature (y : list Q) : M pyfloat :=
  try_except
    (rms <- call EvRms (librosa_feature_rms env y) ;;
     ret (np_nanmean rms))
    (fun _ => ret NaN).

(** Lines 26-39: read, mix down, cast, resample. *)
Definition decode_normalized (filepath : string) : M (list Q * Z) :=
  read <- (fun w => call (EvRead filepath) (sf_read env filepath (fs w)) w) ;;
  let y := to_mono (fst read) in
  let y := map (float32 env) y in
  resample_if_needed y (snd read).

Definition extract_audio_metadata (filepath : string) : M Profile :=
  signal <- decode_normalized filepath ;;
  let y := fst signal in
  let sr := snd signal in
  let duration := get_duration y sr in
  avg_pitch <- pitch_feature y ;;
  avg_energy <- energy_feature y ;;
  ret {| samples := length y;
         sr := sr;
         duration := duration;
         avg_pitch := avg_pitch;
         avg_energy := avg_energy;
         waveform := y |}.

(** The dictionary of lines 92-99, used when the metadata cannot be had. *)
Definition fallback_info : Profile :=
  {| samples := 0;
     sr := 0;
     duration := 0;
     avg_pitch := NaN;
     avg_energy := NaN;
     waveform := [] |}.

(** *** Storage *)

Definition mkdtemp : M string :=
  fun w =>
    match tempfile_mkdtemp env (fs w) with
    | Returned d => (Returned d, mkWorld (<[d := Dir]> (fs w)) (calls w))
    | Raised e => (Raised e, w)
    end.

(** [with open(path, "wb") as f: f.write(data)] *)
Definition write_file (path : string) (data : list byte) : M unit :=
  fun w =>
    match open_wb env path (fs w) with
    | None => (Returned tt, mkWorld (<[path := File data]> (fs w)) (calls w))
    | Some e => (Raised e, w)
    end.

(** [shutil.rmtree(temp_dir, ignore_errors=True)] *)
Definition rmtree (d : string) : M unit :=
  fun w => (Returned tt, mkWorld (rmtree_fs d (fs w)) (calls w)).

Definition classify (path : string) : M (Z * string) :=
  fun w => call (EvClassify path) (infa_deepfake env path (fs w)) w.

(** *** The two entry points *)

(** Lines 87-99: try the metadata, fall back when that raises. *)
Definition metadata_or_fallback (temp_file_path : string) : M Profile :=
  try_except (extract_audio_metadata temp_file_path)
             (fun _ => ret fallback_info).

(** Lines 82-101: the block under [try] of [process_audio_file]. *)
Definition upload_body (temp_file_path : string) (uploaded_file : UploadedFile)
  : M (Z * string * Profile) :=
  let data := content uploaded_file in
  write_file temp_file_path data ;;;
  audio_info <- metadata_or_fallback temp_file_path ;;
  verdict <- classify temp_file_path ;;
  ret (fst verdict, snd verdict, audio_info).

Definition process_audio_file (uploaded_file : UploadedFile)
  : M (Z * string * Profile) :=
  temp_dir <- mkdtemp ;;
  let temp_file_path := os_path_join temp_dir (name uploaded_file) in
  try_finally (upload_body temp_file_path uploaded_file) (rmtree temp_dir).

Definition REAL_message : string :=
  "This audio was recorded live and is classified as REAL.".

Definition force_real_result (audio_info : Profile) : Z * string * Profile :=
  (1, REAL_message, audio_info).

Definition UnboundLocalError : exn :=
  Exception "UnboundLocalError"
            "cannot access local variable 'temp_dir' where it is not associated with a value".

(** Lines 885-897 of [main], the analysis of a recording.  [mkdtemp] is
    called inside the [try], so when it raises the [finally] clause reads
    [temp_dir] before anything was assigned to it. *)
Definition record_body (temp_dir : string) (recorded_audio : UploadedFile)
  : M Profile :=
  let temp_path := os_path_join temp_dir (name recorded_audio) in
  write_file temp_path (content recorded_audio) ;;;
  extract_audio_metadata temp_path.

Definition main_record (recorded_audio : UploadedFile)
  : M (Z * string * Profile) :=
  fun w =>
    match mkdtemp w with
    | (Raised _, w1) => raise UnboundLocalError w1
    | (Returned temp_dir, w1) =>
        (info <- try_finally (record_body temp_dir recorded_audio)
                             (rmtree temp_dir) ;;
         ret (force_real_result info)) w1
    end.

(** *** Closed forms used in the statements *)

(** What the two guarded blocks leave in [avg_pitch] and [avg_energy]. *)
Definition pitch_value (y : list Q) : pyfloat :=
  match librosa_yin env y 50 300 with
  | Returned pitch => np_nanmean pitch
  | Raised _ => NaN
  end.

Definition energy_value (y : list Q) : pyfloat :=
  match librosa_feature_rms env y with
  | Returned rms => np_nanmean rms
  | Raised _ => NaN
  end.

(** The profile built from a normalized signal. *)
Definition profile_of (y : list Q) (rate : Z) : Profile :=
  {| samples := length y;
     sr := rate;
     duration := get_duration y rate;
     avg_pitch := pitch_value y;
     avg_energy := energy_value y;
     waveform := y |}.

End Pipeline.

(** The filesystem once [u] is stored in the fresh directory [d]. *)
Definition stored_in (d : string) (u : UploadedFile) (m : FS) : FS :=
  <[os_path_join d (name u) := File (content u)]> (<[d := Dir]> m).

(** The world after further external calls. *)
Definition logged (w : World) (evs : list event) : World :=
  mkWorld (fs w) (calls w ++ evs).

(** [len(y)] of what soundfile returned: the number of frames. *)
Definition frames (y : ndarray) : nat :=
  match y with Arr1 v => length v | Arr2 rows => length rows end.

(** ** Toy collaborators, to run the pipeline on concrete inputs *)

Module Toy.

Definition tmp : string := "/tmp/tmpk3v9x2qa".

Definition sample_of (b : byte) : Q := Z.of_N (Byte.to_N b) # 128.

Fixpoint frames2 (l : list byte) : list (list Q) :=
  match l with
  | a :: b :: t => [sample_of a; sample_of b] :: frames2 t
  | _ => []
  end.

(** A one-byte header: 01 is mono at 16 kHz, 02 is stereo at 44.1 kHz,
    03 is mono at 8 kHz; anything else is not audio. *)
Definition toy_read (path : string) (m : FS) : Outcome (ndarray * Z) :=
  match m !! path with
  | Some (File (x01 :: body)) => Returned (Arr1 (map sample_of body), 16000)
  | Some (File (x02 :: body)) => Returned (Arr2 (frames2 body), 44100)
  | Some (File (x03 :: body)) => Returned (Arr1 (map sample_of body), 8000)
  | _ => Raised (Exception "LibsndfileError" "Format not recognised.")
  end.

(** Repeat or drop samples; refuses an empty signal as librosa does. *)
Definition toy_resample (y : list Q) (orig target : Z) : Outcome (list Q) :=
  match y with
  | [] => Raised (Exception "ParameterError" "Audio buffer is empty")
  | _ => Returned (if orig <? target then flat_map (fun q => [q; q]) y else firstn (length y / 2) y)
  end.

Definition toy_yin (y : list Q) (fmin fmax : Z) : Outcome (list pyfloat) :=
  match y with
  | [] => Raised (Exception "ParameterError" "Audio buffer is empty")
  | _ => Returned [NaN; Fin (inject_Z fmin); Fin (inject_Z fmax)]
  end.

Definition toy_rms (y : list Q) : Outcome (list pyfloat) :=
  Returned (map (fun q => Fin (Qabs q)) y).

(** A classifier that answers for any stored file. *)
Definition toy_classifier (path : string) (m : FS) : Outcome (Z * string) :=
  match m !! path with
  | Some (File _) => Returned (1, "The audio is fake.")
  | _ => Returned (0, "file not found")
  end.

(** A classifier whose model fails to load. *)
Definition crashing_classifier (path : string) (m : FS) : Outcome (Z * string) :=
  Raised (Exception "RuntimeError" "model weights not found").

(** A classifier that raises on what it cannot load. *)
Definition strict_classifier (path : string) (m : FS) : Outcome (Z * string) :=
  match toy_read path m with
  | Returned _ => Returned (1, "The audio is real.")
  | Raised e => Raised e
  end.

Definition failing_yin (y : list Q) (fmin fmax : Z) : Outcome (list pyfloat) :=
  Raised (Exception "ParameterError" "yin failed").

Definition failing_rms (y : list Q) : Outcome (list pyfloat) :=
  Raised (Exception "ParameterError" "rms failed").

Definition bench yin rms (classifier : string -> FS -> Outcome (Z * string))
  : Collaborators :=
  {| tempfile_mkdtemp := fun _ => Returned tmp;
     open_wb := fun _ _ => None;
     sf_read := toy_read;
     float32 := Qred;
     librosa_resample := toy_resample;
     librosa_yin := yin;
     librosa_feature_rms := rms;
     infa_deepfake := classifier |}.

Definition lab (classifier : string -> FS -> Outcome (Z * string)) : Collaborators :=
  bench toy_yin toy_rms classifier.

(** The world in which [u] has been stored under [tmp]. *)
Definition stored (u : UploadedFile) : World :=
  mkWorld (stored_in tmp u ∅) [].

Definition w0 : World := mkWorld ∅ [].

Definition mono_clip : UploadedFile := mkUploadedFile "clip.wav" [x01; x40; x20; x60].
Definition stereo_clip : UploadedFile := mkUploadedFile "clip.wav" [x02; x40; x20; x60; x20].
Definition garbage : UploadedFile := mkUploadedFile "audio.wav" [x00; xff].
Definition escaping_clip : UploadedFile := mkUploadedFile "../clip.wav" [x01; x40; x20].

Definition clip_path : string := "/tmp/tmpk3v9x2qa/clip.wav".
Definition audio_path : string := "/tmp/tmpk3v9x2qa/audio.wav".
Definition not_audio : exn := Exception "LibsndfileError" "Format not recognised.".

End Toy.

(** ** The page: [render_results] and [main]

    A run of the script draws widgets on a page and reads and writes
    [st.session_state].  Of the widgets only those whose content depends
    on data are kept; the style sheet, the headings, the captions and the
    spacers of the source are fixed markup and are left out. *)

Module Ui.

(** [str.lower()] on the letters A-Z; every other byte is left alone. *)
Definition lower_ascii (c : ascii) : ascii :=
  let n := N_of_ascii c in
  if ((65 <=? n) && (n <=? 90))%N then ascii_of_N (n + 32) else c.

Fixpoint lower (s : string) : string :=
  match s with
  | EmptyString => EmptyString
  | String c rest => String (lower_ascii c) (lower rest)
  end.

(** [needle in hay] for Python strings. *)
Fixpoint contains (needle hay : string) : bool :=
  (String.prefix needle hay ||
   match hay with
   | EmptyString => false
   | String _ rest => contains needle rest
   end)%bool.

(** [str(message)] for a message that is a string or [None]. *)
Definition py_str (message : option string) : string :=
  match message with
  | Some text => text
  | None => "None"
  end.

(** The text put in a card: [""], [f"{x:.2f}"] and the like, [f"{n}"]. *)
Inductive card_value : Type :=
| Blank
| Fixed (digits : nat) (x : Q)
| Whole (n : Z).

Inductive widget : Type :=
| ModeCard (title : string) (active : bool)
| AudioPreview (data : list byte)
| ResultCard (title bg border heading_color text_color message : string)
| InferenceFailedCard
| Write (message : option string)
| MetricCard (label : string) (value : card_value) (unit : string)
| WaveformPlot (y : list Q)
| InfoBox (text : string)
| AwaitingInput.

(** The dictionary kept under [st.session_state.result]. *)
Record StoredResult : Type := mkStoredResult {
  has_result : bool;
  status : option Z;
  message : option string;
  info : option Profile
}.

(** [st.session_state]: either key may be missing. *)
Record Session : Type := mkSession {
  mode : option string;
  result : option StoredResult
}.

Definition empty_session : Session := mkSession None None.

(** What the widgets of the left column return in one run of the script. *)
Record Interaction : Type := mkInteraction {
  upload_clicked : bool;
  record_clicked : bool;
  uploaded_file : option UploadedFile;
  analyze_upload : bool;
  recorded_audio : option UploadedFile;
  analyze_record : bool
}.

Record App : Type := mkApp {
  session : Session;
  page : list widget;
  world : World
}.

Definition UI (A : Type) : Type := App -> Outcome A * App.

Definition pure {A} (a : A) : UI A := fun app => (Returned a, app).

Definition throw {A} (e : exn) : UI A := fun app => (Raised e, app).

Definition and_then {A B} (m : UI A) (k : A -> UI B) : UI B :=
  fun app =>
    match m app with
    | (Returned a, app') => k a app'
    | (Raised e, app') => (Raised e, app')
    end.

Definition emit (ws : list widget) : UI unit :=
  fun app => (Returned tt, mkApp (session app) (page app ++ ws) (world app)).

(** Run a pipeline computation on the world of the application. *)
Definition lift {A} (m : M A) : UI A :=
  fun app =>
    match m (world app) with
    | (r, w') => (r, mkApp (session app) (page app) w')
    end.

Definition update_session (f : Session -> Session) : UI unit :=
  fun app => (Returned tt, mkApp (f (session app)) (page app) (world app)).

Definition AttributeError (key : string) : exn :=
  Exception "AttributeError" key.

Definition get_mode : UI string :=
  fun app =>
    match mode (session app) with
    | Some m => (Returned m, app)
    | None => (Raised (AttributeError "mode"), app)
    end.

Definition get_result : UI StoredResult :=
  fun app =>
    match result (session app) with
    | Some r => (Returned r, app)
    | None => (Raised (AttributeError "result"), app)
    end.

Declare Scope ui_scope.
Delimit Scope ui_scope with ui.
Notation "x <- m ;; k" := (and_then m (fun x => k))
  (at level 100, m at next level, right associativity) : ui_scope.
Notation "m ;;; k" := (and_then m (fun _ => k))
  (at level 100, right associativity) : ui_scope.

Local Open Scope ui_scope.

(** *** [render_results] *)

Definition deepfake_card (text : string) : widget :=
  ResultCard "❌ Deepfake Detected" "#fee2e2" "#fecaca" "#b91c1c" "#7f1d1d" text.

Definition real_card (text : string) : widget :=
  ResultCard "✅ Real Audio" "#dcfce7" "#bbf7d0" "#166534" "#065f46" text.

(** Lines 121-165: the result card. *)
Definition result_card (status : option Z) (message : option string)
  : list widget :=
  match status with
  | Some 1 =>
      let is_fake := contains "fake" (lower (py_str message)) in
      if is_fake then [deepfake_card (py_str message)]
      else [real_card (py_str message)]
  | _ => [InferenceFailedCard; Write message]
  end.

Definition not_nan (digits : nat) (x : pyfloat) : card_value :=
  match x with
  | NaN => Blank
  | Fin q => Fixed digits q
  end.

(** Lines 180-263: the five cards and the waveform. *)
Definition profile_cards (info : Profile) : list widget :=
  [ MetricCard "Duration" (Fixed 2 (duration info)) " sec";
    MetricCard "Sample Rate" (Whole (sr info)) " Hz";
    MetricCard "Samples" (Whole (Z.of_nat (samples info))) "";
    MetricCard "Average Pitch" (not_nan 2 (avg_pitch info)) " Hz";
    MetricCard "Voice Energy" (not_nan 5 (avg_energy info)) "";
    if (0 <? length (waveform info))%nat
    then WaveformPlot (waveform info)
    else InfoBox "Waveform not available for this audio." ].

Definition TypeError : exn :=
  Exception "TypeError" "'NoneType' object is not subscriptable".

Definition render_results (status : option Z) (message : option string)
    (info : option Profile) : UI unit :=
  emit (result_card status message) ;;;
  match info with
  | Some info => emit (profile_cards info)
  | None => throw TypeError
  end.

(** *** [main] *)

Section Script.

Context (env : Collaborators).

(** Lines 287-296: the two keys get their defaults when missing. *)
Definition init_session (s : Session) : Session :=
  mkSession
    (match mode s with Some m => Some m | None => Some "upload"%string end)
    (match result s with
     | Some r => Some r
     | None => Some (mkStoredResult false None None None)
     end).

Definition set_mode (m : string) (s : Session) : Session :=
  mkSession (Some m) (result s).

Definition set_result (verdict : Z * string * Profile) (s : Session) : Session :=
  mkSession (mode s)
    (Some (mkStoredResult true (Some (fst (fst verdict)))
                          (Some (snd (fst verdict))) (Some (snd verdict)))).

(** Lines 774-777. *)
Definition update_mode (i : Interaction) : UI unit :=
  if upload_clicked i then update_session (set_mode "upload")
  else if record_clicked i then update_session (set_mode "record")
  else pure tt.

(** Lines 814-851: the upload controls. *)
Definition upload_controls (i : Interaction) : UI unit :=
  match uploaded_file i with
  | Some uploaded_file =>
      emit [AudioPreview (content uploaded_file)] ;;;
      if analyze_upload i then
        verdict <- lift (process_audio_file env uploaded_file) ;;
        update_session (set_result verdict)
      else pure tt
  | None => pure tt
  end.

(** Lines 853-904: the record controls. *)
Definition record_controls (i : Interaction) : UI unit :=
  match recorded_audio i with
  | Some recorded_audio =>
      emit [AudioPreview (content recorded_audio)] ;;;
      if analyze_record i then
        verdict <- lift (main_record env recorded_audio) ;;
        update_session (set_result verdict)
      else pure tt
  | None => pure tt
  end.

(** Lines 916-940: the analysis panel. *)
Definition analysis_panel : UI unit :=
  r <- get_result ;;
  if has_result r then render_results (status r) (message r) (info r)
  else emit [AwaitingInput].

Definition main (i : Interaction) : UI unit :=
  update_session init_session ;;;
  update_mode i ;;;
  m <- get_mode ;;
  emit [ModeCard "Upload audio" (String.eqb m "upload");
        ModeCard "Record from mic" (String.eqb m "record")] ;;;
  (if String.eqb m "upload" then upload_controls i else record_controls i) ;;;
  analysis_panel.

(** One run of the script: Streamlit starts from an empty page and hands
    the session state of the run before. *)
Definition rerun (i : Interaction) (s : Session) (w : World) : Outcome unit * App :=
  main i (mkApp s [] w).

(** A browser session: one run per interaction, whether or not the run
    before ended in an exception. *)
Fixpoint run_script (script : list Interaction) (s : Session) (w : World)
  : Session * World :=
  match script with
  | [] => (s, w)
  | i :: rest =>
      let app := snd (rerun i s w) in
      run_script rest (session app) (world app)
  end.

(** *** Closed forms used in the statements *)

(** The mode the controls are drawn for. *)
Definition mode_after (i : Interaction) (s : Session) : string :=
  if upload_clicked i then "upload"
  else if record_clicked i then "record"
  else match mode s with Some m => m | None => "upload" end.

(** The stored result a run starts from. *)
Definition stored_before (s : Session) : StoredResult :=
  match result s with
  | Some r => r
  | None => mkStoredResult false None None None
  end.

Definition stored (verdict : Z * string * Profile) : StoredResult :=
  mkStoredResult true (Some (fst (fst verdict))) (Some (snd (fst verdict)))
                 (Some (snd verdict)).

Definition mode_cards (m : string) : list widget :=
  [ModeCard "Upload audio" (String.eqb m "upload");
   ModeCard "Record from mic" (String.eqb m "record")].

(** The file offered to the controls of the mode, if any. *)
Definition offered (i : Interaction) (s : Session) : option UploadedFile :=
  if String.eqb (mode_after i s) "upload" then uploaded_file i
  else recorded_audio i.

Definition previews (i : Interaction) (s : Session) : list widget :=
  match offered i s with
  | Some f => [AudioPreview (content f)]
  | None => []
  end.

(** The pipeline a run starts, if it starts one. *)
Definition requested_analysis (i : Interaction) (s : Session)
  : option (M (Z * string * Profile)) :=
  if String.eqb (mode_after i s) "upload" then
    match uploaded_file i with
    | Some f => if analyze_upload i then Some (process_audio_file env f) else None
    | None => None
    end
  else
    match recorded_audio i with
    | Some f => if analyze_record i then Some (main_record env f) else None
    | None => None
    end.

Definition panel_widgets (r : StoredResult) : list widget :=
  if has_result r then
    result_card (status r) (message r) ++
    match info r with Some pr => profile_cards pr | None => [] end
  else [AwaitingInput].

Definition panel_outcome (r : StoredResult) : Outcome unit :=
  if has_result r then
    match info r with Some _ => Returned tt | None => Raised TypeError end
  else Returned tt.

(** A stored result that claims a verdict has all its parts. *)
Definition complete (r : StoredResult) : Prop :=
  has_result r = true ->
  exists st msg pr, status r = Some st /\ message r = Some msg /\ info r = Some pr.

(** The name of the offered file, joined to whatever directory
    [tempfile.mkdtemp] hands out, stays below that directory. *)
Definition stored_below (f : option UploadedFile) : Prop :=
  match f with
  | Some u =>
      forall (m : FS) (d : string),
        tempfile_mkdtemp env m = Returned d ->
        inside d (os_path_join d (name u)) = true
  | None => True
  end.

(** [tempfile.mkdtemp] hands out a directory that was not there. *)
Definition fresh_directories : Prop :=
  forall (m : FS) (d : string),
    tempfile_mkdtemp env m = Returned d ->
    forall p, inside d p = true -> m !! p = None.

End Script.

End Ui.

(** ** Toy sessions, to run the script on concrete interactions *)

Module ToyUi.

Import Ui.

Definition idle : Interaction :=
  mkInteraction false false None false None false.

Definition click_record : Interaction :=
  mkInteraction false true None false None false.

Definition analyze_upload_of (f : UploadedFile) : Interaction :=
  mkInteraction true false (Some f) true None false.

Definition analyze_record_of (f : UploadedFile) : Interaction :=
  mkInteraction false true None false (Some f) true.

(** A [mkdtemp] that refuses a name that is taken. *)
Definition careful_mkdtemp (m : FS) : Outcome string :=
  if decide (map_Forall (fun p _ => inside Toy.tmp p = false) m)
  then Returned Toy.tmp
  else Raised (Exception "FileExistsError" "No usable temporary directory name found").

Definition rig (mkdtemp : FS -> Outcome string) (open : string -> FS -> option exn)
    (classifier : string -> FS -> Outcome (Z * string)) : Collaborators :=
  {| tempfile_mkdtemp := mkdtemp;
     open_wb := open;
     sf_read := Toy.toy_read;
     float32 := Qred;
     librosa_resample := Toy.toy_resample;
     librosa_yin := Toy.toy_yin;
     librosa_feature_rms := Toy.toy_rms;
     infa_deepfake := classifier |}.

Definition careful : Collaborators :=
  rig careful_mkdtemp (fun _ _ => None) Toy.toy_classifier.

Definition disk_full : exn := Exception "OSError" "No space left on device".

Definition no_space : Collaborators :=
  rig (fun _ => Raised disk_full) (fun _ _ => None) Toy.toy_classifier.


Definition shouting_classifier (path : string) (m : FS) : Outcome (Z * string) :=
  Returned (1, "Verdict: FAKE voice"%string).

Definition passwd : UploadedFile := mkUploadedFile "/etc/passwd" [x01; x40].

(** A session state in which an upload was judged fake. *)
Definition seen_fake : Session :=
  mkSession (Some "upload"%string)
    (Some (mkStoredResult true (Some 1) (Some "The audio is fake."%string)
                          (Some fallback_info))).

End ToyUi.

(** ** How the stages run *)

Section StageRuns.

Context (env : Collaborators).

Lemma logged_logged w evs evs' :
  logged (logged w evs) evs' = logged w (evs ++ evs').
Proof. unfold logged; simpl. by rewrite <- app_assoc. Qed.

Lemma pitch_feature_run y w :
  pitch_feature env y w = (Returned (pitch_value env y), logged w [EvYin]).
Proof.
  unfold pitch_feature, pitch_value, try_except, bind, call, ret, logged.
  destruct (librosa_yin env y 50 300); reflexivity.
Qed.

Lemma energy_feature_run y w :
  energy_feature env y w = (Returned (energy_value env y), logged w [EvRms]).
Proof.
  unfold energy_feature, energy_value, try_except, bind, call, ret, logged.
  destruct (librosa_feature_rms env y); reflexivity.
Qed.

Lemma resample_same_rate y w :
  resample_if_needed env y target_sr w = (Returned (y, target_sr), w).
Proof. reflexivity. Qed.

Lemma resample_other_rate y rate w :
  rate <> target_sr ->
  resample_if_needed env y rate w =
    match librosa_resample env y rate target_sr with
    | Returned y' => (Returned (y', target_sr), logged w [EvResample rate target_sr])
    | Raised e => (Raised e, logged w [EvResample rate target_sr])
    end.
Proof.
  intros Hne. unfold resample_if_needed.
  destruct (rate =? target_sr) eqn:E; [apply Z.eqb_eq in E; contradiction|].
  simpl. unfold bind, call, ret, logged.
  destruct (librosa_resample env y rate target_sr); reflexivity.
Qed.

Lemma resample_rate y rate w y' rate' w' :
  resample_if_needed env y rate w = (Returned (y', rate'), w') ->
  rate' = target_sr.
Proof.
  destruct (Z.eq_dec rate target_sr) as [->|Hne].
  - rewrite resample_same_rate. congruence.
  - rewrite resample_other_rate by assumption.
    destruct (librosa_resample env y rate target_sr); congruence.
Qed.

Lemma decode_normalized_run filepath w :
  decode_normalized env filepath w =
    match sf_read env filepath (fs w) with
    | Returned read =>
        resample_if_needed env (map (float32 env) (to_mono (fst read)))
                           (snd read) (logged w [EvRead filepath])
    | Raised e => (Raised e, logged w [EvRead filepath])
    end.
Proof.
  unfold decode_normalized, bind, call, logged.
  destruct (sf_read env filepath (fs w)); reflexivity.
Qed.

Lemma decode_rate filepath w y rate w' :
  decode_normalized env filepath w = (Returned (y, rate), w') ->
  rate = target_sr.
Proof.
  rewrite decode_normalized_run.
  destruct (sf_read env filepath (fs w)); [|congruence].
  apply resample_rate.
Qed.

Lemma extract_audio_metadata_run filepath w :
  extract_audio_metadata env filepath w =
    match decode_normalized env filepath w with
    | (Returned signal, w1) =>
        (Returned (profile_of env (fst signal) (snd signal)), logged w1 [EvYin; EvRms])
    | (Raised e, w1) => (Raised e, w1)
    end.
Proof.
  unfold extract_audio_metadata, bind at 1.
  destruct (decode_normalized env filepath w) as [[signal|e] w1]; [|reflexivity].
  unfold bind. rewrite pitch_feature_run, energy_feature_run.
  unfold ret. by rewrite logged_logged.
Qed.

Lemma extract_returns_inv filepath w info w' :
  extract_audio_metadata env filepath w = (Returned info, w') ->
  exists y w1,
    decode_normalized env filepath w = (Returned (y, target_sr), w1) /\
    info = profile_of env y target_sr /\ w' = logged w1 [EvYin; EvRms].
Proof.
  rewrite extract_audio_metadata_run.
  destruct (decode_normalized env filepath w) as [[[y rate]|e] w1] eqn:E; [|congruence].
  intros H. injection H as <- <-.
  pose proof (decode_rate _ _ _ _ _ E) as ->.
  by exists y, w1.
Qed.

End StageRuns.

(** ** The decoder and the feature extractor *)

Section Extraction.

Context (env : Collaborators).

Lemma Qlen_nonzero {A} (l : list A) : l <> [] -> ~ (Qlen l == 0)%Q.
Proof.
  destruct l as [|a l]; [congruence|]. intros _.
  unfold Qlen, Qeq. simpl. lia.
Qed.

Lemma Qmean_times_length (row : list Q) :
  row <> [] -> (Qmean row * Qlen row == Qsum row)%Q.
Proof.
  intros Hne. unfold Qmean.
  rewrite Qmult_comm. apply Qmult_div_r. by apply Qlen_nonzero.
Qed.

Lemma to_mono_length (y : ndarray) : length (to_mono y) = frames y.
Proof. destruct y; simpl; [reflexivity|]. unfold np_mean_axis1. apply length_map. Qed.

(** The test [y.ndim > 1] fails exactly on a vector, which is kept. *)
Lemma to_mono_one_dimension (y : ndarray) :
  (ndim y >? 1) = false -> y = Arr1 (to_mono y).
Proof. destruct y; [reflexivity|discriminate]. Qed.

(** C5: whenever the metadata of a file are extracted and the signal is
    not empty, the [sr] field of the profile is exactly 16000. *)
Theorem sample_rate_is_16000 (filepath : string) (w w' : World) (info : Profile) :
  extract_audio_metadata env filepath w = (Returned info, w') ->
  waveform info <> [] ->
  sr info = 16000.
Proof.
  intros Hrun _.
  apply extract_returns_inv in Hrun as (y & w1 & _ & -> & _).
  reflexivity.
Qed.

(** C6: on a decoded signal the two estimates are both attempted, each
    under its own guard: an exception of the pitch tracker leaves
    [avg_pitch] at NaN, an exception of the energy estimate leaves
    [avg_energy] at NaN, and each field is otherwise the mean of what its
    own estimator returned, whatever became of the other. *)
Theorem features_fail_independently
    (filepath : string) (w w1 : World) (y : list Q) (rate : Z) :
  decode_normalized env filepath w = (Returned (y, rate), w1) ->
  exists info,
    extract_audio_metadata env filepath w
      = (Returned info, logged w1 [EvYin; EvRms]) /\
    (forall e, librosa_yin env y 50 300 = Raised e -> avg_pitch info = NaN) /\
    (forall pitch, librosa_yin env y 50 300 = Returned pitch ->
                   avg_pitch info = np_nanmean pitch) /\
    (forall e, librosa_feature_rms env y = Raised e -> avg_energy info = NaN) /\
    (forall rms, librosa_feature_rms env y = Returned rms ->
                 avg_energy info = np_nanmean rms).
Proof.
  intros Hdec. exists (profile_of env y rate).
  rewrite extract_audio_metadata_run, Hdec. simpl.
  unfold pitch_value, energy_value.
  repeat split; intros ? ->; reflexivity.
Qed.

(** C7: for every decoded signal the profile counts the samples of that
    signal at the rate of 16000, and its [duration] is that count over that
    rate: the duration times 16000 is the number of samples, and it is
    zero exactly when the signal has no samples. *)
Theorem duration_is_samples_over_rate
    (filepath : string) (w w1 : World) (y : list Q) (rate : Z) :
  decode_normalized env filepath w = (Returned (y, rate), w1) ->
  exists info,
    extract_audio_metadata env filepath w
      = (Returned info, logged w1 [EvYin; EvRms]) /\
    samples info = length y /\
    sr info = 16000 /\
    (duration info == inject_Z (Z.of_nat (samples info)) / inject_Z (sr info))%Q /\
    (duration info * inject_Z 16000 == inject_Z (Z.of_nat (length y)))%Q /\
    (samples info = 0%nat <-> (duration info == 0)%Q).
Proof.
  intros Hdec. pose proof (decode_rate _ _ _ _ _ _ Hdec) as ->.
  exists (profile_of env y target_sr).
  rewrite extract_audio_metadata_run, Hdec. simpl.
  unfold get_duration, Qlen, target_sr.
  assert (Hmul : (inject_Z (Z.of_nat (length y)) / inject_Z 16000 * inject_Z 16000
                  == inject_Z (Z.of_nat (length y)))%Q).
  { rewrite Qmult_comm. apply Qmult_div_r. discriminate. }
  repeat split; try reflexivity; try exact Hmul.
  - intros ->. reflexivity.
  - intros Hzero. rewrite Hzero in Hmul.
    destruct y; [reflexivity|]. exfalso. revert Hmul.
    unfold Qeq. simpl. lia.
Qed.

(** C8: the signal the decoder hands on is the mixed-down read: a
    multi-channel read is collapsed, frame by frame, to the arithmetic mean
    of that frame's channels (the mean times the number of channels is
    their sum; for two channels it is half their sum), one sample per
    frame, and a one-channel read goes through the step as it is.  It is
    this signal, cast to float32, that is resampled and, at 16000, ends up
    as the waveform. *)
Theorem mixdown_is_channel_mean
    (filepath : string) (w : World) (y0 : ndarray) (rate : Z) :
  sf_read env filepath (fs w) = Returned (y0, rate) ->
  decode_normalized env filepath w
    = resample_if_needed env (map (float32 env) (to_mono y0)) rate
        (logged w [EvRead filepath]) /\
  (rate = 16000 ->
   exists info,
     extract_audio_metadata env filepath w
       = (Returned info, logged w [EvRead filepath; EvYin; EvRms]) /\
     waveform info = map (float32 env) (to_mono y0)) /\
  (forall v, y0 = Arr1 v -> to_mono y0 = v) /\
  (forall rows, y0 = Arr2 rows ->
     length (to_mono y0) = length rows /\
     forall i row, nth_error rows i = Some row -> row <> [] ->
       exists m, nth_error (to_mono y0) i = Some m /\
                 (m * Qlen row == Qsum row)%Q /\
                 (forall a b, row = [a; b] -> (m == (a + b) / 2)%Q)).
Proof.
  intros Hread.
  assert (Hdec : decode_normalized env filepath w
            = resample_if_needed env (map (float32 env) (to_mono y0)) rate
                (logged w [EvRead filepath])).
  { by rewrite decode_normalized_run, Hread. }
  split; [exact Hdec|]. split; [|split].
  - intros ->. exists (profile_of env (map (float32 env) (to_mono y0)) 16000).
    rewrite extract_audio_metadata_run, Hdec.
    change 16000 with target_sr. rewrite resample_same_rate. simpl.
    by rewrite logged_logged.
  - by intros v ->.
  - intros rows ->. split; [apply (to_mono_length (Arr2 rows))|].
    intros i row Hrow Hne. exists (Qmean row). split; [|split].
    + simpl. unfold np_mean_axis1. by rewrite nth_error_map, Hrow.
    + by apply Qmean_times_length.
    + intros a b ->. unfold Qmean, Qsum, Qlen. simpl.
      rewrite Qplus_0_r. reflexivity.
Qed.

(** C9: at a native rate of 16000 the resampling stage hands its input
    back: the resampler is not called, the normalized signal is the
    mixed-down, cast input, and the profile counts as many samples as the
    file has frames. *)
Theorem resampling_16k_is_identity
    (filepath : string) (w : World) (y0 : ndarray) :
  sf_read env filepath (fs w) = Returned (y0, 16000) ->
  (forall y w1, resample_if_needed env y 16000 w1 = (Returned (y, 16000), w1)) /\
  decode_normalized env filepath w
    = (Returned (map (float32 env) (to_mono y0), 16000), logged w [EvRead filepath]) /\
  exists info,
    extract_audio_metadata env filepath w
      = (Returned info, logged w [EvRead filepath; EvYin; EvRms]) /\
    waveform info = map (float32 env) (to_mono y0) /\
    samples info = frames y0 /\
    sr info = 16000.
Proof.
  intros Hread.
  assert (Hdec : decode_normalized env filepath w
    = (Returned (map (float32 env) (to_mono y0), 16000), logged w [EvRead filepath])).
  { rewrite decode_normalized_run, Hread. reflexivity. }
  split; [intros; apply resample_same_rate|]. split; [exact Hdec|].
  exists (profile_of env (map (float32 env) (to_mono y0)) 16000).
  rewrite extract_audio_metadata_run, Hdec. simpl.
  rewrite logged_logged. repeat split.
  by rewrite length_map, to_mono_length.
Qed.

(** C10: [force_real_result] hands back the profile it was given, with
    status 1 and the fixed message; being a pure function it does nothing
    else. *)
Theorem force_real_result_keeps_profile (audio_info : Profile) :
  force_real_result audio_info
    = (1, "This audio was recorded live and is classified as REAL."%string, audio_info).
Proof. reflexivity. Qed.

End Extraction.

(** ** Storage and the two entry points *)

Section Orchestration.

Context (env : Collaborators).

Lemma rmtree_fs_inside (d p : string) (m : FS) :
  inside d p = true -> rmtree_fs d m !! p = None.
Proof.
  intros Hin. apply map_lookup_filter_None. right.
  intros x _ Hkeep. simpl in Hkeep. congruence.
Qed.

Lemma rmtree_fs_outside (d p : string) (m : FS) :
  inside d p = false -> rmtree_fs d m !! p = m !! p.
Proof.
  intros Hout. unfold rmtree_fs. rewrite map_lookup_filter.
  destruct (m !! p) as [x|]; simpl; [|reflexivity].
  case_guard; simpl in *; [reflexivity|congruence].
Qed.

Lemma inside_self (d : string) : inside d d = true.
Proof. unfold inside. by rewrite String.eqb_refl. Qed.

Lemma try_finally_rmtree {A} (m : M A) (d : string) (w : World) :
  try_finally m (rmtree d) w
    = (fst (m w), mkWorld (rmtree_fs d (fs (snd (m w)))) (calls (snd (m w)))).
Proof. unfold try_finally, rmtree. by destruct (m w). Qed.

Lemma resample_fs y rate w :
  fs (snd (resample_if_needed env y rate w)) = fs w.
Proof.
  destruct (Z.eq_dec rate target_sr) as [->|Hne].
  - by rewrite resample_same_rate.
  - rewrite resample_other_rate by assumption.
    by destruct (librosa_resample env y rate target_sr).
Qed.

Lemma decode_fs filepath w :
  fs (snd (decode_normalized env filepath w)) = fs w.
Proof.
  rewrite decode_normalized_run.
  destruct (sf_read env filepath (fs w)); [|reflexivity].
  by rewrite resample_fs.
Qed.

Lemma extract_fs filepath w :
  fs (snd (extract_audio_metadata env filepath w)) = fs w.
Proof.
  rewrite extract_audio_metadata_run.
  pose proof (decode_fs filepath w) as H.
  by destruct (decode_normalized env filepath w) as [[signal|e] w1].
Qed.

(** The guarded extraction of [process_audio_file] never raises. *)
Lemma metadata_or_fallback_run filepath w :
  exists info w',
    metadata_or_fallback env filepath w = (Returned info, w') /\
    fs w' = fs w /\
    (forall e, fst (extract_audio_metadata env filepath w) = Raised e ->
               info = fallback_info) /\
    (forall i, fst (extract_audio_metadata env filepath w) = Returned i ->
               info = i).
Proof.
  unfold metadata_or_fallback, try_except.
  pose proof (extract_fs filepath w) as Hfs.
  destruct (extract_audio_metadata env filepath w) as [[i|e] w1]; simpl in *.
  - exists i, w1. repeat split; [assumption|discriminate|congruence].
  - exists fallback_info, w1. repeat split; [assumption|discriminate].
Qed.

Lemma upload_body_run (uploaded_file : UploadedFile) (path : string) (w1 : World) :
  open_wb env path (fs w1) = None ->
  let m := <[path := File (content uploaded_file)]> (fs w1) in
  exists info w3,
    metadata_or_fallback env path (mkWorld m (calls w1)) = (Returned info, w3) /\
    upload_body env path uploaded_file w1 =
      (match infa_deepfake env path m with
       | Returned verdict => Returned (fst verdict, snd verdict, info)
       | Raised e => Raised e
       end,
       mkWorld m (calls w3 ++ [EvClassify path])).
Proof.
  intros Hopen m.
  destruct (metadata_or_fallback_run path (mkWorld m (calls w1)))
    as (info & w3 & Hmeta & Hfs & _).
  exists info, w3. split; [exact Hmeta|].
  unfold upload_body, bind at 1, write_file. rewrite Hopen.
  fold m. unfold bind at 1. rewrite Hmeta.
  unfold bind, classify, call, ret. rewrite Hfs. simpl.
  destruct (infa_deepfake env path m); reflexivity.
Qed.

(** The upload path once the clip is stored: the classifier is called on
    the stored file, its outcome is the outcome of the pipeline, and the
    tree under the temporary directory is gone. *)
Lemma process_audio_file_run (uploaded_file : UploadedFile) (w : World) (d : string) :
  tempfile_mkdtemp env (fs w) = Returned d ->
  open_wb env (os_path_join d (name uploaded_file)) (<[d := Dir]> (fs w)) = None ->
  let path := os_path_join d (name uploaded_file) in
  let m := stored_in d uploaded_file (fs w) in
  exists info w3,
    metadata_or_fallback env path (mkWorld m (calls w)) = (Returned info, w3) /\
    process_audio_file env uploaded_file w =
      (match infa_deepfake env path m with
       | Returned verdict => Returned (fst verdict, snd verdict, info)
       | Raised e => Raised e
       end,
       mkWorld (rmtree_fs d m) (calls w3 ++ [EvClassify path])).
Proof.
  intros Hmk Hopen path m.
  destruct (upload_body_run uploaded_file path
              (mkWorld (<[d := Dir]> (fs w)) (calls w)) Hopen)
    as (info & w3 & Hmeta & Hbody).
  exists info, w3. split; [exact Hmeta|].
  unfold process_audio_file, bind, mkdtemp. rewrite Hmk.
  rewrite try_finally_rmtree. fold path. rewrite Hbody. reflexivity.
Qed.

Lemma upload_body_fs (uploaded_file : UploadedFile) (path q : string) (w1 : World) :
  q <> path ->
  fs (snd (upload_body env path uploaded_file w1)) !! q = fs w1 !! q.
Proof.
  intros Hq.
  destruct (open_wb env path (fs w1)) as [e|] eqn:Hopen.
  - unfold upload_body, bind, write_file. by rewrite Hopen.
  - destruct (upload_body_run uploaded_file path w1 Hopen) as (info & w3 & _ & ->).
    simpl. by apply lookup_insert_ne.
Qed.

Lemma record_body_fs (recorded_audio : UploadedFile) (d q : string) (w1 : World) :
  q <> os_path_join d (name recorded_audio) ->
  fs (snd (record_body env d recorded_audio w1)) !! q = fs w1 !! q.
Proof.
  intros Hq. unfold record_body, bind, write_file.
  destruct (open_wb env _ (fs w1)) as [e|]; [reflexivity|].
  rewrite extract_fs. simpl. by apply lookup_insert_ne.
Qed.

Lemma main_record_fs (recorded_audio : UploadedFile) (w : World) (d : string) :
  tempfile_mkdtemp env (fs w) = Returned d ->
  fs (snd (main_record env recorded_audio w))
    = rmtree_fs d (fs (snd (record_body env d recorded_audio
                              (mkWorld (<[d := Dir]> (fs w)) (calls w))))).
Proof.
  intros Hmk. unfold main_record, mkdtemp. rewrite Hmk.
  unfold bind. rewrite try_finally_rmtree.
  by destruct (record_body env d recorded_audio _) as [[info|e] w2].
Qed.

Lemma process_audio_file_fs (uploaded_file : UploadedFile) (w : World) (d : string) :
  tempfile_mkdtemp env (fs w) = Returned d ->
  fs (snd (process_audio_file env uploaded_file w))
    = rmtree_fs d (fs (snd (upload_body env (os_path_join d (name uploaded_file))
                              uploaded_file
                              (mkWorld (<[d := Dir]> (fs w)) (calls w))))).
Proof.
  intros Hmk. unfold process_audio_file, bind, mkdtemp. rewrite Hmk.
  by rewrite try_finally_rmtree.
Qed.

(** When no directory could be created there is nothing to remove. *)
Lemma no_directory_no_change (u : UploadedFile) (w : World) (e : exn) :
  tempfile_mkdtemp env (fs w) = Raised e ->
  process_audio_file env u w = (Raised e, w) /\
  main_record env u w = (Raised UnboundLocalError, w).
Proof.
  intros Hmk.
  unfold process_audio_file, main_record, bind, mkdtemp. by rewrite Hmk.
Qed.

Lemma inside_not_self (d q : string) : inside d q = false -> q <> d.
Proof. intros Hout ->. by rewrite inside_self in Hout. Qed.

Lemma record_body_stored (recorded_audio : UploadedFile) (d : string) (w1 : World) :
  open_wb env (os_path_join d (name recorded_audio)) (fs w1) = None ->
  fs (snd (record_body env d recorded_audio w1))
    = <[os_path_join d (name recorded_audio) := File (content recorded_audio)]> (fs w1).
Proof.
  intros Hopen. unfold record_body, bind, write_file. rewrite Hopen.
  by rewrite extract_fs.
Qed.

(** C4, as the code has it: whatever the decoder and the classifier do,
    once either entry point is over the temporary directory it created and
    every path that leads into it are absent from the filesystem.  When
    the clip's name joined to the directory stays below it, the clip is
    gone with the directory and nothing outside the directory has changed.
    When the name leads out of the directory (an absolute name, or one
    that climbs out with [..]) the clip is written there and is still
    there afterwards. *)
Theorem temp_dir_is_removed (u : UploadedFile) (w : World) (d p : string) :
  tempfile_mkdtemp env (fs w) = Returned d ->
  inside d p = true ->
  (fs (snd (process_audio_file env u w)) !! p = None /\
   fs (snd (main_record env u w)) !! p = None) /\
  (inside d (os_path_join d (name u)) = true ->
   forall q, inside d q = false ->
     fs (snd (process_audio_file env u w)) !! q = fs w !! q /\
     fs (snd (main_record env u w)) !! q = fs w !! q) /\
  (inside d (os_path_join d (name u)) = false ->
   open_wb env (os_path_join d (name u)) (<[d := Dir]> (fs w)) = None ->
   fs (snd (process_audio_file env u w)) !! os_path_join d (name u)
     = Some (File (content u)) /\
   fs (snd (main_record env u w)) !! os_path_join d (name u)
     = Some (File (content u))).
Proof.
  intros Hmk Hin.
  rewrite (process_audio_file_fs u w d Hmk), (main_record_fs u w d Hmk).
  split; [split; by apply rmtree_fs_inside|]. split.
  - intros Hbelow q Hout.
    assert (Hq : q <> os_path_join d (name u)) by (intros ->; congruence).
    rewrite !rmtree_fs_outside by assumption.
    rewrite upload_body_fs, record_body_fs by assumption. simpl.
    apply inside_not_self in Hout. by rewrite lookup_insert_ne.
  - intros Hout Hopen. rewrite !rmtree_fs_outside by assumption.
    rewrite record_body_stored by exact Hopen.
    destruct (upload_body_run u (os_path_join d (name u))
                (mkWorld (<[d := Dir]> (fs w)) (calls w)) Hopen)
      as (info & w3 & _ & ->).
    simpl. by rewrite lookup_insert_eq.
Qed.

Lemma prefix_append (a b : string) : String.prefix a (String.append a b) = true.
Proof.
  induction a as [|c a IH]; simpl; [by destruct b|].
  destruct (ascii_dec c c); [exact IH|congruence].
Qed.

(** With a fresh directory and a clip stored below it, either entry point
    leaves the filesystem as it found it. *)
Lemma fresh_dir_leaves_nothing (u : UploadedFile) (w : World) (d : string) :
  tempfile_mkdtemp env (fs w) = Returned d ->
  (forall p, inside d p = true -> fs w !! p = None) ->
  inside d (os_path_join d (name u)) = true ->
  fs (snd (process_audio_file env u w)) = fs w /\
  fs (snd (main_record env u w)) = fs w.
Proof.
  intros Hmk Hfresh Hjoin.
  rewrite (process_audio_file_fs u w d Hmk), (main_record_fs u w d Hmk).
  split; apply map_eq; intros p;
    destruct (inside d p) eqn:Hp.
  - rewrite rmtree_fs_inside by assumption. symmetry. by apply Hfresh.
  - rewrite rmtree_fs_outside by assumption.
    rewrite upload_body_fs by (intros ->; congruence). simpl.
    apply lookup_insert_ne. intros ->. by rewrite inside_self in Hp.
  - rewrite rmtree_fs_inside by assumption. symmetry. by apply Hfresh.
  - rewrite rmtree_fs_outside by assumption.
    rewrite record_body_fs by (intros ->; congruence). simpl.
    apply lookup_insert_ne. intros ->. by rewrite inside_self in Hp.
Qed.

(** C1, as the code has it: on the upload path nothing catches an
    exception of the classifier; it reaches the caller once the temporary
    directory is removed.  When the classifier returns a status and a
    message, the caller gets them unchanged with a profile. *)
Theorem classifier_outcome_reaches_caller (u : UploadedFile) (w : World) (d : string) :
  tempfile_mkdtemp env (fs w) = Returned d ->
  open_wb env (os_path_join d (name u)) (<[d := Dir]> (fs w)) = None ->
  let path := os_path_join d (name u) in
  let m := stored_in d u (fs w) in
  (forall e, infa_deepfake env path m = Raised e ->
             fst (process_audio_file env u w) = Raised e) /\
  (forall status message,
     infa_deepfake env path m = Returned (status, message) ->
     exists info, fst (process_audio_file env u w)
                    = Returned (status, message, info)) /\
  (forall p, inside d p = true ->
             fs (snd (process_audio_file env u w)) !! p = None).
Proof.
  intros Hmk Hopen path m.
  destruct (process_audio_file_run u w d Hmk Hopen) as (info & w3 & _ & Hrun).
  fold path m in Hrun. rewrite Hrun. simpl.
  split; [|split].
  - by intros e ->.
  - intros status message ->. by exists info.
  - intros p Hin. by apply rmtree_fs_inside.
Qed.

Lemma existsb_classify_extract filepath w :
  existsb is_classify (calls (snd (extract_audio_metadata env filepath w)))
    = existsb is_classify (calls w).
Proof.
  rewrite extract_audio_metadata_run, decode_normalized_run.
  destruct (sf_read env filepath (fs w)) as [[y0 rate]|e]; simpl.
  - destruct (Z.eq_dec rate target_sr) as [->|Hne].
    + rewrite resample_same_rate. simpl.
      rewrite !existsb_app. simpl. by rewrite !orb_false_r.
    + rewrite resample_other_rate by assumption.
      destruct (librosa_resample env _ rate target_sr); simpl;
        rewrite !existsb_app; simpl; by rewrite !orb_false_r.
  - rewrite existsb_app. simpl. by rewrite orb_false_r.
Qed.

(** The record branch makes no call to the classifier. *)
Lemma main_record_skips_classifier (recorded_audio : UploadedFile) (w : World) :
  existsb is_classify (calls (snd (main_record env recorded_audio w)))
    = existsb is_classify (calls w).
Proof.
  unfold main_record, mkdtemp.
  destruct (tempfile_mkdtemp env (fs w)) as [d|e]; [|reflexivity].
  unfold bind. rewrite try_finally_rmtree.
  set (w1 := mkWorld (<[d := Dir]> (fs w)) (calls w)).
  assert (Hbody : existsb is_classify (calls (snd (record_body env d recorded_audio w1)))
                  = existsb is_classify (calls w)).
  { unfold record_body, bind, write_file.
    destruct (open_wb env _ (fs w1)); [reflexivity|].
    by rewrite existsb_classify_extract. }
  by destruct (record_body env d recorded_audio w1) as [[info|e] w2].
Qed.

(** The record branch when the metadata can be extracted: status 1, the
    fixed message and the extracted profile. *)
Lemma main_record_run (recorded_audio : UploadedFile) (w w2 : World)
    (d : string) (info : Profile) :
  tempfile_mkdtemp env (fs w) = Returned d ->
  record_body env d recorded_audio (mkWorld (<[d := Dir]> (fs w)) (calls w))
    = (Returned info, w2) ->
  fst (main_record env recorded_audio w) = Returned (1, REAL_message, info).
Proof.
  intros Hmk Hbody. unfold main_record, mkdtemp. rewrite Hmk.
  unfold bind. rewrite try_finally_rmtree, Hbody. reflexivity.
Qed.

(** On the record branch an exception of the metadata extraction is not
    caught. *)
Lemma main_record_raises (recorded_audio : UploadedFile) (w w2 : World)
    (d : string) (e : exn) :
  tempfile_mkdtemp env (fs w) = Returned d ->
  record_body env d recorded_audio (mkWorld (<[d := Dir]> (fs w)) (calls w))
    = (Raised e, w2) ->
  fst (main_record env recorded_audio w) = Raised e.
Proof.
  intros Hmk Hbody. unfold main_record, mkdtemp. rewrite Hmk.
  unfold bind. rewrite try_finally_rmtree, Hbody. reflexivity.
Qed.

(** C3, as the code has it: on the upload path a stored file whose
    metadata cannot be extracted does not stop the run; the profile is the
    fallback one (no samples, rate 0, duration 0, NaN pitch and energy,
    empty waveform), the classifier is still called on the stored file and
    its verdict is returned with that profile.  The record branch never
    calls the classifier. *)
Theorem unparseable_upload_falls_back
    (u : UploadedFile) (w : World) (d : string) (e : exn) :
  tempfile_mkdtemp env (fs w) = Returned d ->
  open_wb env (os_path_join d (name u)) (<[d := Dir]> (fs w)) = None ->
  let path := os_path_join d (name u) in
  let m := stored_in d u (fs w) in
  fst (extract_audio_metadata env path (mkWorld m (calls w))) = Raised e ->
  In (EvClassify path) (calls (snd (process_audio_file env u w))) /\
  (forall status message,
     infa_deepfake env path m = Returned (status, message) ->
     fst (process_audio_file env u w) = Returned (status, message, fallback_info)) /\
  (samples fallback_info = 0%nat /\ sr fallback_info = 0 /\
   (duration fallback_info == 0)%Q /\ avg_pitch fallback_info = NaN /\
   avg_energy fallback_info = NaN /\ waveform fallback_info = []) /\
  (forall recorded_audio w0,
     existsb is_classify (calls (snd (main_record env recorded_audio w0)))
       = existsb is_classify (calls w0)).
Proof.
  intros Hmk Hopen path m Hraise.
  destruct (process_audio_file_run u w d Hmk Hopen) as (info & w3 & Hmeta & Hrun).
  fold path m in Hmeta, Hrun.
  destruct (metadata_or_fallback_run path (mkWorld m (calls w)))
    as (info' & w3' & Hmeta' & _ & Hfall & _).
  rewrite Hmeta in Hmeta'. injection Hmeta' as <- <-.
  rewrite (Hfall e Hraise) in Hrun. rewrite Hrun. simpl.
  split; [|split; [|split]].
  - apply in_or_app. right. by left.
  - by intros status message ->.
  - repeat split; reflexivity.
  - intros. apply main_record_skips_classifier.
Qed.

End Orchestration.

(** ** The pipeline on concrete clips *)

Module Runs.

Import Toy.

Example upload_mono :
  fst (process_audio_file (lab toy_classifier) mono_clip w0)
    = Returned (1, "The audio is fake."%string,
                {| samples := 3; sr := 16000; duration := 3 # 16000;
                   avg_pitch := Fin (350 # 2); avg_energy := Fin (48 # 96);
                   waveform := [1 # 2; 1 # 4; 3 # 4] |}).
Proof. vm_compute. reflexivity. Qed.

Example upload_leaves_nothing :
  fs (snd (process_audio_file (lab toy_classifier) mono_clip w0)) = ∅.
Proof. vm_compute. reflexivity. Qed.

(** [resolve] on the cases [posixpath.normpath] documents. *)
Example resolve_follows_normpath :
  resolve "" = "."%string /\ resolve "a/./b/" = "a/b"%string /\
  resolve "a/.." = "."%string /\ resolve "../a" = "../a"%string /\
  resolve "/.." = "/"%string /\ resolve "//a" = "//a"%string /\
  resolve "///a" = "/a"%string /\
  resolve "/tmp/tmpk3v9x2qa/clip.wav" = "/tmp/tmpk3v9x2qa/clip.wav"%string.
Proof. repeat split; vm_compute; reflexivity. Qed.

(** Two stereo frames: the mean of the channels, not the left channel. *)
Example mixdown_of_two_frames :
  map Qred (to_mono (Arr2 [[1 # 2; 1 # 4]; [3 # 4; 1 # 4]])) = [3 # 8; 1 # 2].
Proof. vm_compute. reflexivity. Qed.

Example record_mono :
  fst (main_record (lab toy_classifier) mono_clip w0)
    = Returned (1, "This audio was recorded live and is classified as REAL."%string,
                {| samples := 3; sr := 16000; duration := 3 # 16000;
                   avg_pitch := Fin (350 # 2); avg_energy := Fin (48 # 96);
                   waveform := [1 # 2; 1 # 4; 3 # 4] |}).
Proof. vm_compute. reflexivity. Qed.

Example upload_unparseable :
  fst (process_audio_file (lab toy_classifier) garbage w0)
    = Returned (1, "The audio is fake."%string, fallback_info).
Proof. vm_compute. reflexivity. Qed.

(** C1, counterexample: the clip decodes, the classifier raises, and the
    caller of [process_audio_file] gets that exception, not a triple. *)
Lemma classifier_exception_escapes :
  fst (process_audio_file (lab crashing_classifier) mono_clip w0)
    = Raised (Exception "RuntimeError" "model weights not found").
Proof. vm_compute. reflexivity. Qed.

(** C4, counterexample: a clip whose name climbs out of the temporary
    directory is written next to it, and after either entry point has
    returned and removed the directory the clip is still there. *)
Lemma clip_outside_is_left_behind :
  resolve (os_path_join tmp (name escaping_clip)) = "/tmp/clip.wav"%string /\
  fs (snd (process_audio_file (lab toy_classifier) escaping_clip w0))
    !! os_path_join tmp (name escaping_clip) = Some (File (content escaping_clip)) /\
  fs (snd (main_record (lab toy_classifier) escaping_clip w0))
    !! os_path_join tmp (name escaping_clip) = Some (File (content escaping_clip)).
Proof. repeat split; vm_compute; reflexivity. Qed.

(** C2, at the failing input: a recording that soundfile cannot read makes
    the record branch raise; no status or message is produced. *)
Lemma record_unparseable_raises :
  fst (main_record (lab toy_classifier) garbage w0) = Raised not_audio.
Proof. vm_compute. reflexivity. Qed.

(** C3, counterexample: on bytes that are not audio the upload path
    raises when the classifier does, and the record branch does not call
    the classifier at all. *)
Lemma unparseable_input_counterexample :
  fst (process_audio_file (lab strict_classifier) garbage w0) = Raised not_audio /\
  existsb is_classify (calls (snd (main_record (lab toy_classifier) garbage w0))) = false.
Proof. split; vm_compute; reflexivity. Qed.

Lemma sample_rate_is_16000_witness :
  exists info w',
    extract_audio_metadata (lab toy_classifier) clip_path (stored stereo_clip)
      = (Returned info, w') /\
    waveform info <> [] /\
    sr info = 16000.
Proof.
  eexists. eexists.
  split; [vm_compute; reflexivity|].
  split; [discriminate|].
  eapply (sample_rate_is_16000 (lab toy_classifier) clip_path (stored stereo_clip));
    [vm_compute; reflexivity|discriminate].
Defined.

Lemma features_fail_independently_witness :
  exists y rate w1,
    decode_normalized (bench failing_yin toy_rms toy_classifier) clip_path
                      (stored mono_clip) = (Returned (y, rate), w1) /\
    exists info,
      extract_audio_metadata (bench failing_yin toy_rms toy_classifier) clip_path
                             (stored mono_clip)
        = (Returned info, logged w1 [EvYin; EvRms]) /\
      avg_pitch info = NaN /\
      avg_energy info = Fin (48 # 96).
Proof.
  eexists. eexists. eexists.
  split; [vm_compute; reflexivity|].
  edestruct (features_fail_independently
               (bench failing_yin toy_rms toy_classifier) clip_path (stored mono_clip))
    as (info & Hrun & Hpitch & _ & _ & Henergy);
    [vm_compute; reflexivity|].
  exists info. split; [exact Hrun|]. split.
  - eapply Hpitch. reflexivity.
  - rewrite (Henergy _ eq_refl). vm_compute. reflexivity.
Defined.

Lemma duration_is_samples_over_rate_witness :
  exists y rate w1,
    decode_normalized (lab toy_classifier) clip_path (stored stereo_clip)
      = (Returned (y, rate), w1) /\
    exists info,
      extract_audio_metadata (lab toy_classifier) clip_path (stored stereo_clip)
        = (Returned info, logged w1 [EvYin; EvRms]) /\
      samples info = 1%nat /\
      sr info = 16000 /\
      (duration info * inject_Z 16000 == 1)%Q.
Proof.
  eexists. eexists. eexists.
  split; [vm_compute; reflexivity|].
  edestruct (duration_is_samples_over_rate (lab toy_classifier) clip_path
               (stored stereo_clip))
    as (info & Hrun & Hn & Hsr & _ & Hmul & _);
    [vm_compute; reflexivity|].
  exists info. split; [exact Hrun|]. split; [exact Hn|]. split; [exact Hsr|].
  exact Hmul.
Defined.

Lemma mixdown_is_channel_mean_witness :
  sf_read (lab toy_classifier) clip_path (fs (stored stereo_clip))
    = Returned (Arr2 [[64 # 128; 32 # 128]; [96 # 128; 32 # 128]], 44100) /\
  decode_normalized (lab toy_classifier) clip_path (stored stereo_clip)
    = resample_if_needed (lab toy_classifier)
        (map Qred (to_mono (Arr2 [[64 # 128; 32 # 128]; [96 # 128; 32 # 128]])))
        44100 (logged (stored stereo_clip) [EvRead clip_path]).
Proof.
  split; [vm_compute; reflexivity|].
  apply (mixdown_is_channel_mean (lab toy_classifier) clip_path (stored stereo_clip)
           (Arr2 [[64 # 128; 32 # 128]; [96 # 128; 32 # 128]]) 44100).
  vm_compute. reflexivity.
Defined.

Lemma resampling_16k_is_identity_witness :
  sf_read (lab toy_classifier) clip_path (fs (stored mono_clip))
    = Returned (Arr1 [64 # 128; 32 # 128; 96 # 128], 16000) /\
  decode_normalized (lab toy_classifier) clip_path (stored mono_clip)
    = (Returned (map Qred [64 # 128; 32 # 128; 96 # 128], 16000),
       logged (stored mono_clip) [EvRead clip_path]).
Proof.
  split; [vm_compute; reflexivity|].
  apply (resampling_16k_is_identity (lab toy_classifier) clip_path (stored mono_clip)
           (Arr1 [64 # 128; 32 # 128; 96 # 128])).
  vm_compute. reflexivity.
Defined.

Lemma temp_dir_is_removed_witness :
  tempfile_mkdtemp (lab strict_classifier) (fs w0) = Returned tmp /\
  inside tmp audio_path = true /\
  inside tmp (os_path_join tmp (name garbage)) = true /\
  inside tmp "/tmp/notes.txt" = false /\
  fs (snd (process_audio_file (lab strict_classifier) garbage w0)) !! audio_path = None /\
  fs (snd (main_record (lab strict_classifier) garbage w0)) !! audio_path = None /\
  fs (snd (process_audio_file (lab strict_classifier) garbage w0)) !! "/tmp/notes.txt"
    = fs w0 !! "/tmp/notes.txt".
Proof.
  split; [reflexivity|]. split; [vm_compute; reflexivity|].
  split; [vm_compute; reflexivity|]. split; [vm_compute; reflexivity|].
  destruct (temp_dir_is_removed (lab strict_classifier) garbage w0 tmp audio_path)
    as [[Hup Hrec] [Hframe _]]; [reflexivity|vm_compute; reflexivity|].
  split; [exact Hup|]. split; [exact Hrec|].
  apply Hframe; vm_compute; reflexivity.
Defined.

Lemma classifier_outcome_reaches_caller_witness :
  tempfile_mkdtemp (lab crashing_classifier) (fs w0) = Returned tmp /\
  open_wb (lab crashing_classifier) (os_path_join tmp (name mono_clip))
          (<[tmp := Dir]> (fs w0)) = None /\
  (forall e,
     infa_deepfake (lab crashing_classifier) (os_path_join tmp (name mono_clip))
                   (stored_in tmp mono_clip (fs w0)) = Raised e ->
     fst (process_audio_file (lab crashing_classifier) mono_clip w0) = Raised e).
Proof.
  split; [reflexivity|]. split; [reflexivity|].
  apply (classifier_outcome_reaches_caller (lab crashing_classifier) mono_clip w0 tmp);
    reflexivity.
Defined.

Lemma unparseable_upload_falls_back_witness :
  tempfile_mkdtemp (lab toy_classifier) (fs w0) = Returned tmp /\
  open_wb (lab toy_classifier) (os_path_join tmp (name garbage))
          (<[tmp := Dir]> (fs w0)) = None /\
  fst (extract_audio_metadata (lab toy_classifier) (os_path_join tmp (name garbage))
         (mkWorld (stored_in tmp garbage (fs w0)) (calls w0))) = Raised not_audio /\
  In (EvClassify (os_path_join tmp (name garbage)))
     (calls (snd (process_audio_file (lab toy_classifier) garbage w0))).
Proof.
  split; [reflexivity|]. split; [reflexivity|]. split; [vm_compute; reflexivity|].
  apply (unparseable_upload_falls_back (lab toy_classifier) garbage w0 tmp not_audio);
    [reflexivity|reflexivity|vm_compute; reflexivity].
Defined.

End Runs.

(** ** The result card *)

Section ResultCard.

Import Ui.

Lemma append_cons (c : ascii) (a b : string) :
  String.append (String c a) b = String c (String.append a b).
Proof. reflexivity. Qed.

Lemma lower_append (a b : string) :
  lower (String.append a b) = String.append (lower a) (lower b).
Proof.
  induction a as [|c a IH]; [reflexivity|].
  rewrite append_cons. simpl. rewrite IH. by rewrite append_cons.
Qed.

Lemma contains_of_prefix (needle hay : string) :
  String.prefix needle hay = true -> contains needle hay = true.
Proof. intros H. destruct hay; cbn [contains]; rewrite H; reflexivity. Qed.

Lemma contains_append_l (needle pre hay : string) :
  contains needle hay = true -> contains needle (String.append pre hay) = true.
Proof.
  intros H. induction pre as [|c pre IH]; [exact H|].
  rewrite append_cons. cbn [contains]. rewrite IH. apply orb_true_r.
Qed.

Lemma contains_middle (needle pre post : string) :
  contains needle (String.append pre (String.append needle post)) = true.
Proof.
  apply contains_append_l, contains_of_prefix, prefix_append.
Qed.

(** X1: with status 1, a message that has the word fake anywhere, in any
    mix of upper and lower case, is shown on the red card. *)
Theorem fake_in_any_case_is_flagged (pre word post : string) :
  lower word = "fake"%string ->
  result_card (Some 1) (Some (String.append pre (String.append word post)))
    = [deepfake_card (String.append pre (String.append word post))].
Proof.
  intros Hword. unfold result_card, py_str.
  by rewrite !lower_append, Hword, contains_middle.
Qed.

End ResultCard.

(** ** Edges of the pipeline *)

Section PipelineEdges.

Context (env : Collaborators).

(** X2: the metadata extraction raises exactly when soundfile cannot read
    the file or the resampling it needs raises, and with that very
    exception; the two estimates never make it raise. *)
Theorem extraction_fails_only_in_decoding (filepath : string) (w : World) (e : exn) :
  fst (extract_audio_metadata env filepath w) = Raised e <->
  (sf_read env filepath (fs w) = Raised e \/
   exists y0 rate,
     sf_read env filepath (fs w) = Returned (y0, rate) /\ rate <> 16000 /\
     librosa_resample env (map (float32 env) (to_mono y0)) rate 16000 = Raised e).
Proof.
  rewrite extract_audio_metadata_run, decode_normalized_run.
  destruct (sf_read env filepath (fs w)) as [[y0 rate]|e0] eqn:Hread; simpl.
  - destruct (Z.eq_dec rate target_sr) as [->|Hne].
    + rewrite resample_same_rate. simpl. split; [discriminate|].
      intros [H|(y & r & H & Hr & _)]; [discriminate|].
      injection H as _ <-. by destruct Hr.
    + rewrite resample_other_rate by assumption.
      destruct (librosa_resample env _ rate target_sr) as [y'|e1] eqn:Hres; simpl.
      * split; [discriminate|].
        intros [H|(y & r & H & _ & Hr)]; [discriminate|].
        injection H as <- <-. unfold target_sr in Hres. congruence.
      * split.
        -- intros [= ->]. right. by exists y0, rate.
        -- intros [H|(y & r & H & _ & Hr)]; [discriminate|].
           injection H as <- <-. unfold target_sr in Hres. congruence.
  - split; [intros [= ->]; by left|].
    intros [H|(y & r & H & _)]; congruence.
Qed.

Lemma extract_calls (filepath : string) (w : World) :
  exists evs,
    calls (snd (extract_audio_metadata env filepath w))
      = calls w ++ EvRead filepath :: evs /\
    existsb is_classify evs = false.
Proof.
  rewrite extract_audio_metadata_run, decode_normalized_run.
  destruct (sf_read env filepath (fs w)) as [[y0 rate]|e]; simpl.
  - destruct (Z.eq_dec rate target_sr) as [->|Hne].
    + rewrite resample_same_rate. simpl.
      exists [EvYin; EvRms]. by rewrite <- app_assoc.
    + rewrite resample_other_rate by assumption.
      destruct (librosa_resample env _ rate target_sr); simpl.
      * exists [EvResample rate target_sr; EvYin; EvRms]. by rewrite <- !app_assoc.
      * exists [EvResample rate target_sr]. by rewrite <- !app_assoc.
  - by exists [].
Qed.

Lemma metadata_or_fallback_world (filepath : string) (w : World) :
  snd (metadata_or_fallback env filepath w)
    = snd (extract_audio_metadata env filepath w).
Proof.
  unfold metadata_or_fallback, try_except.
  by destruct (extract_audio_metadata env filepath w) as [[i|e] w1].
Qed.

(** X3: on the upload path, once the clip is written, the classifier is
    called exactly once and last, after the attempt at the metadata, on
    the path of the stored file, and in the world it is called in that
    path holds the uploaded bytes; its outcome is the outcome of the
    pipeline. *)
Theorem classifier_runs_last_on_stored_bytes
    (u : UploadedFile) (w : World) (d : string) :
  tempfile_mkdtemp env (fs w) = Returned d ->
  open_wb env (os_path_join d (name u)) (<[d := Dir]> (fs w)) = None ->
  let path := os_path_join d (name u) in
  exists w2 info w3 evs,
    write_file env path (content u) (mkWorld (<[d := Dir]> (fs w)) (calls w))
      = (Returned tt, w2) /\
    metadata_or_fallback env path w2 = (Returned info, w3) /\
    fs w3 !! path = Some (File (content u)) /\
    calls w3 = calls w ++ EvRead path :: evs /\
    existsb is_classify evs = false /\
    process_audio_file env u w
      = (match fst (classify env path w3) with
         | Returned verdict => Returned (fst verdict, snd verdict, info)
         | Raised e => Raised e
         end,
         mkWorld (rmtree_fs d (fs w3)) (calls w3 ++ [EvClassify path])).
Proof.
  intros Hmk Hopen path. subst path.
  remember (os_path_join d (name u)) as path eqn:Hpath.
  remember (mkWorld (<[d := Dir]> (fs w)) (calls w)) as w1 eqn:Hw1.
  assert (Hfs1 : fs w1 = <[d := Dir]> (fs w)) by (by subst w1).
  assert (Hwrite : write_file env path (content u) w1
            = (Returned tt, mkWorld (<[path := File (content u)]> (fs w1)) (calls w1))).
  { unfold write_file. by rewrite Hfs1, Hopen. }
  remember (mkWorld (<[path := File (content u)]> (fs w1)) (calls w1)) as w2 eqn:Hw2.
  destruct (metadata_or_fallback_run env path w2) as (info & w3 & Hmeta & Hfs & _).
  pose proof (metadata_or_fallback_world path w2) as Hw. rewrite Hmeta in Hw.
  destruct (extract_calls path w2) as (evs & Hcalls & Hnone).
  simpl in Hw. rewrite <- Hw in Hcalls.
  assert (Hcalls2 : calls w2 = calls w) by (by subst w2 w1).
  rewrite Hcalls2 in Hcalls.
  exists w2, info, w3, evs.
  split; [exact Hwrite|]. split; [exact Hmeta|].
  split; [rewrite Hfs, Hw2; apply lookup_insert_eq|].
  split; [exact Hcalls|]. split; [exact Hnone|].
  assert (Hbody : upload_body env path u w1
            = (match fst (classify env path w3) with
               | Returned verdict => Returned (fst verdict, snd verdict, info)
               | Raised e => Raised e
               end,
               mkWorld (fs w3) (calls w3 ++ [EvClassify path]))).
  { unfold upload_body, bind. rewrite Hwrite, Hmeta.
    unfold classify, call, ret. simpl.
    by destruct (infa_deepfake env path (fs w3)). }
  unfold process_audio_file, bind, mkdtemp. rewrite Hmk.
  rewrite try_finally_rmtree. rewrite <- Hpath, <- Hw1, Hbody. reflexivity.
Qed.

(** X4: a file name that starts with a slash is not put in the temporary
    directory: [os.path.join] returns the name itself, the bytes are
    written there, and the clean-up, which only removes the directory,
    leaves that file behind. *)
Theorem absolute_name_is_written_outside
    (u : UploadedFile) (w : World) (d : string) :
  tempfile_mkdtemp env (fs w) = Returned d ->
  String.prefix sep (name u) = true ->
  inside d (name u) = false ->
  open_wb env (name u) (<[d := Dir]> (fs w)) = None ->
  os_path_join d (name u) = name u /\
  fs (snd (process_audio_file env u w)) !! name u = Some (File (content u)).
Proof.
  intros Hmk Habs Hout Hopen.
  assert (Hjoin : os_path_join d (name u) = name u).
  { unfold os_path_join. by rewrite Habs. }
  split; [exact Hjoin|].
  rewrite <- Hjoin in Hopen.
  destruct (process_audio_file_run env u w d Hmk Hopen) as (info & w3 & _ & Hrun).
  rewrite Hrun. simpl. rewrite rmtree_fs_outside by assumption.
  unfold stored_in. rewrite Hjoin. apply lookup_insert_eq.
Qed.

Lemma write_failure_raises (u : UploadedFile) (w : World) (d : string) (e : exn) :
  tempfile_mkdtemp env (fs w) = Returned d ->
  open_wb env (os_path_join d (name u)) (<[d := Dir]> (fs w)) = Some e ->
  process_audio_file env u w
    = (Raised e, mkWorld (rmtree_fs d (<[d := Dir]> (fs w))) (calls w)) /\
  main_record env u w
    = (Raised e, mkWorld (rmtree_fs d (<[d := Dir]> (fs w))) (calls w)).
Proof.
  intros Hmk Hopen. split.
  - unfold process_audio_file, bind, mkdtemp. rewrite Hmk.
    rewrite try_finally_rmtree.
    unfold upload_body, bind, write_file. simpl. by rewrite Hopen.
  - unfold main_record, mkdtemp. rewrite Hmk.
    unfold bind. rewrite try_finally_rmtree.
    unfold record_body, bind, write_file. simpl. by rewrite Hopen.
Qed.


(** X14: when no temporary directory can be created, the upload path
    raises the error of [mkdtemp], while the record branch, whose
    [finally] clause reads [temp_dir] before it was assigned, raises
    [UnboundLocalError] in its place.  Neither touches the filesystem or
    calls a library. *)
Theorem mkdtemp_failure_is_masked_on_record
    (u : UploadedFile) (w : World) (e : exn) :
  tempfile_mkdtemp env (fs w) = Raised e ->
  process_audio_file env u w = (Raised e, w) /\
  main_record env u w
    = (Raised (Exception "UnboundLocalError"
         "cannot access local variable 'temp_dir' where it is not associated with a value"),
       w).
Proof. intros Hmk. exact (no_directory_no_change env u w e Hmk). Qed.

(** X15: every profile the upload path returns is consistent: its sample
    count is the length of its waveform, and it is either the fallback
    profile or has a sample rate of 16000. *)
Theorem returned_profile_is_consistent
    (u : UploadedFile) (w w' : World) (st : Z) (msg : string) (pr : Profile) :
  process_audio_file env u w = (Returned (st, msg, pr), w') ->
  samples pr = length (waveform pr) /\
  (pr = fallback_info \/ sr pr = 16000).
Proof.
  intros Hrun.
  destruct (tempfile_mkdtemp env (fs w)) as [d|e] eqn:Hmk.
  2:{ destruct (no_directory_no_change env u w e Hmk) as [H _]. congruence. }
  destruct (open_wb env (os_path_join d (name u)) (<[d := Dir]> (fs w)))
    as [e|] eqn:Hopen.
  { destruct (write_failure_raises u w d e Hmk Hopen) as [H _]. congruence. }
  destruct (process_audio_file_run env u w d Hmk Hopen) as (info & w3 & Hmeta & H).
  rewrite H in Hrun.
  destruct (infa_deepfake env _ _) as [v|e]; [|discriminate].
  injection Hrun as _ _ <- _.
  destruct (metadata_or_fallback_run env (os_path_join d (name u))
              (mkWorld (stored_in d u (fs w)) (calls w)))
    as (info' & w3' & Hmeta' & _ & Hfall & Hok).
  rewrite Hmeta in Hmeta'. injection Hmeta' as <- <-.
  destruct (extract_audio_metadata env (os_path_join d (name u))
              (mkWorld (stored_in d u (fs w)) (calls w))) as [[i|e] w1] eqn:Hex.
  - rewrite (Hok i eq_refl).
    apply extract_returns_inv in Hex as (y & w2 & _ & -> & _).
    split; [reflexivity|by right].
  - rewrite (Hfall e eq_refl). split; [reflexivity|by left].
Qed.

End PipelineEdges.

(** ** Runs of the script *)

Section ScriptRuns.

Import Ui.

Context (env : Collaborators).

Lemma analysis_panel_run (app : App) (r : StoredResult) :
  result (session app) = Some r ->
  analysis_panel app
    = (panel_outcome r,
       mkApp (session app) (page app ++ panel_widgets r) (world app)).
Proof.
  intros Hr. unfold analysis_panel, and_then, get_result. rewrite Hr.
  unfold panel_outcome, panel_widgets.
  destruct (has_result r); [|reflexivity].
  unfold render_results, and_then, emit, throw. simpl.
  destruct (info r); simpl; by rewrite <- ?app_assoc, ?app_nil_r.
Qed.

Lemma main_prelude (i : Interaction) (s : Session) (w : World) :
  let m := mode_after i s in
  rerun env i s w =
    ((if String.eqb m "upload" then upload_controls env i
      else record_controls env i) ;;; analysis_panel)%ui
      (mkApp (mkSession (Some m) (Some (stored_before s))) (mode_cards m) w).
Proof.
  destruct s as [mo ro], i as [uc rc uf au ra ar].
  unfold rerun, main, mode_after, stored_before, update_mode. simpl.
  destruct ro, uc; [reflexivity|..]; try reflexivity;
    (destruct rc; [reflexivity|]); destruct mo; reflexivity.
Qed.

Lemma upload_controls_run (i : Interaction) (app : App) :
  upload_controls env i app =
    match uploaded_file i with
    | None => (Returned tt, app)
    | Some f =>
        let shown := mkApp (session app) (page app ++ [AudioPreview (content f)])
                           (world app) in
        if analyze_upload i then
          match process_audio_file env f (world app) with
          | (Returned verdict, w') =>
              (Returned tt,
               mkApp (set_result verdict (session app)) (page shown) w')
          | (Raised e, w') => (Raised e, mkApp (session app) (page shown) w')
          end
        else (Returned tt, shown)
    end.
Proof.
  unfold upload_controls. destruct (uploaded_file i) as [f|]; [|reflexivity].
  unfold and_then, emit, lift, update_session, pure. simpl.
  destruct (analyze_upload i); [|reflexivity].
  cbn [world session page].
  by destruct (process_audio_file env f (world app)) as [[v|e] w'].
Qed.

Lemma record_controls_run (i : Interaction) (app : App) :
  record_controls env i app =
    match recorded_audio i with
    | None => (Returned tt, app)
    | Some f =>
        let shown := mkApp (session app) (page app ++ [AudioPreview (content f)])
                           (world app) in
        if analyze_record i then
          match main_record env f (world app) with
          | (Returned verdict, w') =>
              (Returned tt,
               mkApp (set_result verdict (session app)) (page shown) w')
          | (Raised e, w') => (Raised e, mkApp (session app) (page shown) w')
          end
        else (Returned tt, shown)
    end.
Proof.
  unfold record_controls. destruct (recorded_audio i) as [f|]; [|reflexivity].
  unfold and_then, emit, lift, update_session, pure. simpl.
  destruct (analyze_record i); [|reflexivity].
  cbn [world session page].
  by destruct (main_record env f (world app)) as [[v|e] w'].
Qed.

(** What one run of the script does, by the analysis it starts. *)
Lemma rerun_run (i : Interaction) (s : Session) (w : World) :
  let m := mode_after i s in
  let r0 := stored_before s in
  let drawn := mode_cards m ++ previews i s in
  rerun env i s w =
    match requested_analysis env i s with
    | None =>
        (panel_outcome r0,
         mkApp (mkSession (Some m) (Some r0)) (drawn ++ panel_widgets r0) w)
    | Some pipeline =>
        match pipeline w with
        | (Returned verdict, w') =>
            (panel_outcome (stored verdict),
             mkApp (mkSession (Some m) (Some (stored verdict)))
                   (drawn ++ panel_widgets (stored verdict)) w')
        | (Raised e, w') =>
            (Raised e, mkApp (mkSession (Some m) (Some r0)) drawn w')
        end
    end.
Proof.
  intros m r0 drawn. subst drawn. rewrite main_prelude. fold m r0.
  unfold requested_analysis, previews, offered. fold m.
  unfold and_then.
  destruct (String.eqb m "upload").
  - rewrite upload_controls_run. simpl.
    destruct (uploaded_file i) as [f|].
    + destruct (analyze_upload i).
      * destruct (process_audio_file env f w) as [[v|e] w']; [|reflexivity].
        by erewrite analysis_panel_run by reflexivity.
      * by erewrite analysis_panel_run by reflexivity.
    + erewrite analysis_panel_run by reflexivity. simpl. by rewrite ?app_nil_r.
  - rewrite record_controls_run. simpl.
    destruct (recorded_audio i) as [f|].
    + destruct (analyze_record i).
      * destruct (main_record env f w) as [[v|e] w']; [|reflexivity].
        by erewrite analysis_panel_run by reflexivity.
      * by erewrite analysis_panel_run by reflexivity.
    + erewrite analysis_panel_run by reflexivity. simpl. by rewrite ?app_nil_r.
Qed.

Lemma main_record_returns_inv (f : UploadedFile) (w w' : World)
    (verdict : Z * string * Profile) :
  main_record env f w = (Returned verdict, w') ->
  verdict = (1, REAL_message, snd verdict).
Proof.
  unfold main_record, mkdtemp.
  destruct (tempfile_mkdtemp env (fs w)) as [d|e]; [|discriminate].
  unfold bind. rewrite try_finally_rmtree.
  destruct (record_body env d f _) as [[pr|e] w2]; simpl; [|discriminate].
  unfold ret, force_real_result. by intros [= <- _].
Qed.

Lemma real_message_card :
  result_card (Some 1) (Some REAL_message) = [real_card REAL_message].
Proof. vm_compute. reflexivity. Qed.

(** X6: a run in record mode that analyses a recording whose metadata
    can be extracted stores status 1 with the fixed message and draws the
    green card over the profile; the classifier is not called. *)
Theorem recording_is_shown_as_real
    (i : Interaction) (s : Session) (w w' : World) (f : UploadedFile)
    (verdict : Z * string * Profile) :
  String.eqb (mode_after i s) "upload" = false ->
  recorded_audio i = Some f ->
  analyze_record i = true ->
  main_record env f w = (Returned verdict, w') ->
  rerun env i s w
    = (Returned tt,
       mkApp (mkSession (Some (mode_after i s))
                (Some (mkStoredResult true (Some 1) (Some REAL_message)
                                      (Some (snd verdict)))))
             (mode_cards (mode_after i s) ++ [AudioPreview (content f)]
              ++ real_card REAL_message :: profile_cards (snd verdict))
             w') /\
  existsb is_classify (calls w') = existsb is_classify (calls w).
Proof.
  intros Hmode Hrec Hclick Hrun.
  pose proof (main_record_returns_inv f w w' verdict Hrun) as Hv.
  split.
  - rewrite rerun_run. unfold requested_analysis, previews, offered.
    rewrite Hmode, Hrec, Hclick, Hrun.
    unfold panel_outcome, panel_widgets, stored. rewrite Hv.
    cbn [fst snd has_result status message info].
    by rewrite real_message_card, <- app_assoc.
  - pose proof (main_record_skips_classifier env f w) as H.
    by rewrite Hrun in H.
Qed.

(** X7: an upload that is stored and on which the classifier returns is
    remembered with the classifier's status and message and drawn in the
    same run: the card chosen from them, then the cards of the profile.
    The temporary directory is gone by then. *)
Theorem upload_verdict_is_displayed
    (i : Interaction) (s : Session) (w : World) (f : UploadedFile)
    (d : string) (st : Z) (msg : string) :
  String.eqb (mode_after i s) "upload" = true ->
  uploaded_file i = Some f ->
  analyze_upload i = true ->
  tempfile_mkdtemp env (fs w) = Returned d ->
  open_wb env (os_path_join d (name f)) (<[d := Dir]> (fs w)) = None ->
  infa_deepfake env (os_path_join d (name f)) (stored_in d f (fs w))
    = Returned (st, msg) ->
  exists pr,
    fst (rerun env i s w) = Returned tt /\
    result (session (snd (rerun env i s w)))
      = Some (mkStoredResult true (Some st) (Some msg) (Some pr)) /\
    page (snd (rerun env i s w))
      = mode_cards (mode_after i s) ++ [AudioPreview (content f)]
        ++ result_card (Some st) (Some msg) ++ profile_cards pr /\
    fs (world (snd (rerun env i s w))) !! d = None.
Proof.
  intros Hmode Hup Hclick Hmk Hopen Hverdict.
  destruct (process_audio_file_run env f w d Hmk Hopen) as (pr & w3 & _ & Hrun).
  rewrite Hverdict in Hrun. simpl in Hrun.
  exists pr. rewrite rerun_run.
  unfold requested_analysis, previews, offered.
  rewrite Hmode, Hup, Hclick, Hrun. simpl.
  repeat split. apply rmtree_fs_inside, inside_self.
Qed.

(** X8: a run that starts no analysis, whichever mode button was
    pressed, keeps the stored result and draws it again; the filesystem
    and the log of external calls are untouched. *)
Theorem switching_mode_keeps_the_verdict
    (i : Interaction) (s : Session) (w : World) :
  analyze_upload i = false ->
  analyze_record i = false ->
  rerun env i s w
    = (panel_outcome (stored_before s),
       mkApp (mkSession (Some (mode_after i s)) (Some (stored_before s)))
             ((mode_cards (mode_after i s) ++ previews i s)
              ++ panel_widgets (stored_before s))
             w).
Proof.
  intros Hup Hrec. rewrite rerun_run.
  unfold requested_analysis. rewrite Hup, Hrec.
  by destruct (String.eqb _ _), (uploaded_file i), (recorded_audio i).
Qed.

(** X9: when the analysis a run starts raises, the run ends with that
    exception before the analysis panel is drawn, and the result stored
    by an earlier run is still there. *)
Theorem failed_analysis_keeps_the_verdict
    (i : Interaction) (s : Session) (w w' : World)
    (pipeline : M (Z * string * Profile)) (e : exn) :
  requested_analysis env i s = Some pipeline ->
  pipeline w = (Raised e, w') ->
  rerun env i s w
    = (Raised e,
       mkApp (mkSession (Some (mode_after i s)) (Some (stored_before s)))
             (mode_cards (mode_after i s) ++ previews i s) w').
Proof.
  intros Hreq Hrun. rewrite rerun_run. by rewrite Hreq, Hrun.
Qed.

Lemma stored_complete (verdict : Z * string * Profile) : complete (stored verdict).
Proof. intros _. by eexists _, _, _. Qed.

Lemma rerun_stored (i : Interaction) (s : Session) (w : World) :
  stored_before (session (snd (rerun env i s w))) = stored_before s \/
  exists verdict,
    stored_before (session (snd (rerun env i s w))) = stored verdict.
Proof.
  rewrite rerun_run.
  destruct (requested_analysis env i s) as [pipeline|]; [|by left].
  destruct (pipeline w) as [[v|e] w1]; [right; by exists v|by left].
Qed.

Lemma rerun_complete (i : Interaction) (s : Session) (w : World) :
  complete (stored_before s) ->
  complete (stored_before (session (snd (rerun env i s w)))).
Proof.
  intros Hc. destruct (rerun_stored i s w) as [->|[v ->]];
    [exact Hc|apply stored_complete].
Qed.

Lemma run_script_complete (script : list Interaction) (s : Session) (w : World) :
  complete (stored_before s) ->
  complete (stored_before (fst (run_script env script s w))).
Proof.
  revert s w. induction script as [|i script IH]; intros s w Hc; [exact Hc|].
  simpl. apply IH. by apply rerun_complete.
Qed.

Lemma panel_outcome_complete (r : StoredResult) :
  complete r -> panel_outcome r = Returned tt.
Proof.
  intros Hc. unfold panel_outcome.
  destruct (has_result r) eqn:Hr; [|reflexivity].
  destruct (Hc Hr) as (st & msg & pr & _ & _ & ->). reflexivity.
Qed.

(** X10: in a browser session that starts with an empty session state,
    after any interactions whatever, a stored result marked as present has
    its status, message and profile, so drawing the analysis panel never
    fails: a run of the script raises only the exception of the analysis
    it started. *)
Theorem analysis_panel_never_fails
    (script : list Interaction) (i : Interaction) (w : World) (e : exn) :
  let s' := fst (run_script env script empty_session w) in
  let w' := snd (run_script env script empty_session w) in
  fst (rerun env i s' w') = Raised e ->
  complete (stored_before s') /\
  exists pipeline,
    requested_analysis env i s' = Some pipeline /\
    fst (pipeline w') = Raised e.
Proof.
  intros s' w' Hraise.
  assert (Hc : complete (stored_before s')).
  { apply run_script_complete. intros H. discriminate. }
  split; [exact Hc|].
  rewrite rerun_run in Hraise.
  destruct (requested_analysis env i s') as [pipeline|].
  - exists pipeline. split; [reflexivity|].
    destruct (pipeline w') as [[v|e1] w1]; simpl in *; [|congruence].
    by rewrite (panel_outcome_complete _ (stored_complete v)) in Hraise.
  - simpl in Hraise. by rewrite (panel_outcome_complete _ Hc) in Hraise.
Qed.

(** X11: once a verdict is stored it stays on display: no sequence of
    mode switches, analyses or failed analyses brings the panel back to
    the placeholder. *)
Theorem verdict_is_never_cleared
    (script : list Interaction) (s : Session) (w : World) :
  has_result (stored_before s) = true ->
  has_result (stored_before (fst (run_script env script s w))) = true.
Proof.
  revert s w. induction script as [|i script IH]; intros s w Hr; [exact Hr|].
  simpl. apply IH.
  destruct (rerun_stored i s w) as [->|[v ->]]; [exact Hr|reflexivity].
Qed.

Lemma rerun_skips_classifier (i : Interaction) (s : Session) (w : World) :
  analyze_upload i = false ->
  existsb is_classify (calls (world (snd (rerun env i s w))))
    = existsb is_classify (calls w).
Proof.
  intros Hup. rewrite rerun_run. unfold requested_analysis. rewrite Hup.
  destruct (String.eqb _ _).
  - by destruct (uploaded_file i).
  - destruct (recorded_audio i) as [f|]; [|reflexivity].
    destruct (analyze_record i); [|reflexivity].
    pose proof (main_record_skips_classifier env f w) as H.
    by destruct (main_record env f w) as [[v|e] w1].
Qed.

(** X12: over a whole browser session in which the analysis of an upload
    is never started, the classifier is never called, however many
    recordings are analysed. *)
Theorem only_uploads_are_classified
    (script : list Interaction) (s : Session) (w : World) :
  Forall (fun i => analyze_upload i = false) script ->
  existsb is_classify (calls (snd (run_script env script s w)))
    = existsb is_classify (calls w).
Proof.
  revert s w. induction script as [|i script IH]; intros s w Hall; [reflexivity|].
  inversion Hall as [|? ? Hi Hrest]; subst. simpl.
  rewrite IH by assumption. by apply rerun_skips_classifier.
Qed.

Lemma pipeline_leaves_nothing (u : UploadedFile) (w : World) :
  fresh_directories env ->
  stored_below env (Some u) ->
  fs (snd (process_audio_file env u w)) = fs w /\
  fs (snd (main_record env u w)) = fs w.
Proof.
  intros Hfresh Hbelow.
  destruct (tempfile_mkdtemp env (fs w)) as [d|e] eqn:Hmk.
  - apply (fresh_dir_leaves_nothing env u w d Hmk).
    + exact (Hfresh _ _ Hmk).
    + exact (Hbelow _ _ Hmk).
  - destruct (no_directory_no_change env u w e Hmk) as [-> ->]. by split.
Qed.

Lemma rerun_leaves_nothing (i : Interaction) (s : Session) (w : World) :
  fresh_directories env ->
  stored_below env (uploaded_file i) ->
  stored_below env (recorded_audio i) ->
  fs (world (snd (rerun env i s w))) = fs w.
Proof.
  intros Hfresh Hup Hrec. rewrite rerun_run. unfold requested_analysis.
  destruct (String.eqb _ _).
  - destruct (uploaded_file i) as [f|]; [|reflexivity].
    destruct (analyze_upload i); [|reflexivity].
    destruct (pipeline_leaves_nothing f w Hfresh Hup) as [H _].
    by destruct (process_audio_file env f w) as [[v|e] w1].
  - destruct (recorded_audio i) as [f|]; [|reflexivity].
    destruct (analyze_record i); [|reflexivity].
    destruct (pipeline_leaves_nothing f w Hfresh Hrec) as [_ H].
    by destruct (main_record env f w) as [[v|e] w1].
Qed.

(** X13: when [mkdtemp] hands out directories that did not exist and
    every offered file name, joined to such a directory, stays below it
    (as a plain file name does, and a name that is absolute or climbs out
    with [..] does not), a whole browser session leaves the filesystem
    exactly as it found it, whatever was uploaded or recorded and whatever
    failed on the way. *)
Theorem session_leaves_filesystem_unchanged
    (script : list Interaction) (s : Session) (w : World) :
  fresh_directories env ->
  Forall (fun i => stored_below env (uploaded_file i) /\
                   stored_below env (recorded_audio i)) script ->
  fs (snd (run_script env script s w)) = fs w.
Proof.
  intros Hfresh. revert s w.
  induction script as [|i script IH]; intros s w Hall; [reflexivity|].
  inversion Hall as [|? ? [Hup Hrec] Hrest]; subst. simpl.
  rewrite IH by assumption. by apply rerun_leaves_nothing.
Qed.

End ScriptRuns.

(** ** The script on concrete sessions *)

Module Sessions.

Import Ui ToyUi.

Lemma careful_is_fresh : fresh_directories careful.
Proof.
  intros m d H. unfold careful, rig, careful_mkdtemp in H. simpl in H.
  destruct (decide (map_Forall (fun p _ => inside Toy.tmp p = false) m))
    as [Hall|]; [|discriminate].
  injection H as <-.
  intros p Hin. destruct (m !! p) as [x|] eqn:E; [|reflexivity].
  specialize (Hall p x E). simpl in Hall. congruence.
Qed.

Lemma careful_stores_below (u : UploadedFile) :
  inside Toy.tmp (os_path_join Toy.tmp (name u)) = true ->
  stored_below careful (Some u).
Proof.
  intros Hin m d H. unfold careful, rig, careful_mkdtemp in H. simpl in H.
  destruct (decide _); [|discriminate]. by injection H as <-.
Qed.

Example plain_name_stays_below :
  inside Toy.tmp (os_path_join Toy.tmp "clip.wav") = true /\
  inside Toy.tmp (os_path_join Toy.tmp "take 1/../clip.wav") = true.
Proof. split; vm_compute; reflexivity. Qed.

Example other_names_lead_out :
  inside Toy.tmp (os_path_join Toy.tmp "../clip.wav") = false /\
  inside Toy.tmp (os_path_join Toy.tmp "a/../../clip.wav") = false /\
  inside Toy.tmp (os_path_join Toy.tmp "/etc/passwd") = false.
Proof. repeat split; vm_compute; reflexivity. Qed.

Example one_upload_then_record_mode :
  page (snd (rerun (Toy.lab Toy.toy_classifier) click_record
               (fst (run_script (Toy.lab Toy.toy_classifier)
                       [analyze_upload_of Toy.mono_clip] empty_session Toy.w0))
               Toy.w0))
    = [ModeCard "Upload audio" false; ModeCard "Record from mic" true;
       deepfake_card "The audio is fake.";
       MetricCard "Duration" (Fixed 2 (3 # 16000)) " sec";
       MetricCard "Sample Rate" (Whole 16000) " Hz";
       MetricCard "Samples" (Whole 3) "";
       MetricCard "Average Pitch" (Fixed 2 (350 # 2)) " Hz";
       MetricCard "Voice Energy" (Fixed 5 (48 # 96)) "";
       WaveformPlot [1 # 2; 1 # 4; 3 # 4]].
Proof. vm_compute. reflexivity. Qed.

Lemma fake_in_any_case_is_flagged_witness :
  lower "FaKe" = "fake"%string /\
  result_card (Some 1) (Some "Verdict: FaKe voice"%string)
    = [deepfake_card "Verdict: FaKe voice"].
Proof.
  split; [reflexivity|].
  apply (fake_in_any_case_is_flagged "Verdict: " "FaKe" " voice"). reflexivity.
Defined.

Lemma extraction_fails_only_in_decoding_witness :
  sf_read (Toy.lab Toy.toy_classifier) Toy.audio_path (fs (Toy.stored Toy.garbage))
    = Raised Toy.not_audio /\
  fst (extract_audio_metadata (Toy.lab Toy.toy_classifier) Toy.audio_path
         (Toy.stored Toy.garbage)) = Raised Toy.not_audio.
Proof.
  split; [vm_compute; reflexivity|].
  apply (extraction_fails_only_in_decoding (Toy.lab Toy.toy_classifier)
           Toy.audio_path (Toy.stored Toy.garbage) Toy.not_audio).
  left. vm_compute. reflexivity.
Defined.

Lemma classifier_runs_last_on_stored_bytes_witness :
  tempfile_mkdtemp (Toy.lab Toy.toy_classifier) (fs Toy.w0) = Returned Toy.tmp /\
  open_wb (Toy.lab Toy.toy_classifier) (os_path_join Toy.tmp (name Toy.mono_clip))
          (<[Toy.tmp := Dir]> (fs Toy.w0)) = None /\
  exists w2 info w3 evs,
    write_file (Toy.lab Toy.toy_classifier) (os_path_join Toy.tmp (name Toy.mono_clip))
               (content Toy.mono_clip)
               (mkWorld (<[Toy.tmp := Dir]> (fs Toy.w0)) (calls Toy.w0))
      = (Returned tt, w2) /\
    metadata_or_fallback (Toy.lab Toy.toy_classifier)
                         (os_path_join Toy.tmp (name Toy.mono_clip)) w2
      = (Returned info, w3) /\
    fs w3 !! os_path_join Toy.tmp (name Toy.mono_clip)
      = Some (File (content Toy.mono_clip)) /\
    calls w3 = calls Toy.w0 ++ EvRead (os_path_join Toy.tmp (name Toy.mono_clip)) :: evs.
Proof.
  split; [reflexivity|]. split; [reflexivity|].
  destruct (classifier_runs_last_on_stored_bytes (Toy.lab Toy.toy_classifier)
              Toy.mono_clip Toy.w0 Toy.tmp)
    as (w2 & info & w3 & evs & Hwrite & Hmeta & Hfile & Hcalls & _);
    [reflexivity|reflexivity|].
  by exists w2, info, w3, evs.
Defined.

Lemma absolute_name_is_written_outside_witness :
  tempfile_mkdtemp (Toy.lab Toy.toy_classifier) (fs Toy.w0) = Returned Toy.tmp /\
  String.prefix sep (name passwd) = true /\
  inside Toy.tmp (name passwd) = false /\
  open_wb (Toy.lab Toy.toy_classifier) (name passwd) (<[Toy.tmp := Dir]> (fs Toy.w0)) = None /\
  fs (snd (process_audio_file (Toy.lab Toy.toy_classifier) passwd Toy.w0)) !! name passwd
    = Some (File (content passwd)).
Proof.
  split; [reflexivity|]. split; [reflexivity|]. split; [reflexivity|].
  split; [reflexivity|].
  apply (absolute_name_is_written_outside (Toy.lab Toy.toy_classifier)
           passwd Toy.w0 Toy.tmp); reflexivity.
Defined.


Lemma mkdtemp_failure_is_masked_on_record_witness :
  tempfile_mkdtemp no_space (fs Toy.w0) = Raised disk_full /\
  process_audio_file no_space Toy.mono_clip Toy.w0 = (Raised disk_full, Toy.w0) /\
  fst (main_record no_space Toy.mono_clip Toy.w0) = Raised UnboundLocalError.
Proof.
  split; [reflexivity|].
  destruct (mkdtemp_failure_is_masked_on_record no_space Toy.mono_clip Toy.w0 disk_full)
    as [Hup Hrec]; [reflexivity|].
  split; [exact Hup|]. rewrite Hrec. reflexivity.
Defined.

Lemma returned_profile_is_consistent_witness :
  exists w',
    process_audio_file (Toy.lab Toy.toy_classifier) Toy.stereo_clip Toy.w0
      = (Returned (1, "The audio is fake."%string,
                   mkProfile 1 16000 (1 # 16000) (Fin (350 # 2)) (Fin (3 # 8)) [3 # 8]),
         w') /\
    samples (mkProfile 1 16000 (1 # 16000) (Fin (350 # 2)) (Fin (3 # 8)) [3 # 8])
      = length [3 # 8].
Proof.
  eexists. split; [vm_compute; reflexivity|].
  eapply (returned_profile_is_consistent (Toy.lab Toy.toy_classifier)
            Toy.stereo_clip Toy.w0).
  vm_compute. reflexivity.
Defined.

Lemma recording_is_shown_as_real_witness :
  exists verdict w',
    String.eqb (mode_after (analyze_record_of Toy.mono_clip) empty_session) "upload"
      = false /\
    main_record (Toy.lab Toy.toy_classifier) Toy.mono_clip Toy.w0
      = (Returned verdict, w') /\
    existsb is_classify (calls w') = existsb is_classify (calls Toy.w0).
Proof.
  eexists. eexists.
  split; [reflexivity|]. split; [vm_compute; reflexivity|].
  eapply (recording_is_shown_as_real (Toy.lab Toy.toy_classifier)
            (analyze_record_of Toy.mono_clip) empty_session Toy.w0);
    [reflexivity|reflexivity|reflexivity|vm_compute; reflexivity].
Defined.

Lemma upload_verdict_is_displayed_witness :
  infa_deepfake (Toy.lab shouting_classifier) (os_path_join Toy.tmp (name Toy.mono_clip))
                (stored_in Toy.tmp Toy.mono_clip (fs Toy.w0))
    = Returned (1, "Verdict: FAKE voice"%string) /\
  exists pr,
    fst (rerun (Toy.lab shouting_classifier) (analyze_upload_of Toy.mono_clip)
               empty_session Toy.w0) = Returned tt /\
    result (session (snd (rerun (Toy.lab shouting_classifier)
                            (analyze_upload_of Toy.mono_clip) empty_session Toy.w0)))
      = Some (mkStoredResult true (Some 1) (Some "Verdict: FAKE voice"%string) (Some pr)).
Proof.
  split; [reflexivity|].
  destruct (upload_verdict_is_displayed (Toy.lab shouting_classifier)
              (analyze_upload_of Toy.mono_clip) empty_session Toy.w0 Toy.mono_clip
              Toy.tmp 1 "Verdict: FAKE voice")
    as (pr & Hout & Hres & _); try reflexivity.
  exists pr. split; assumption.
Defined.

Lemma switching_mode_keeps_the_verdict_witness :
  analyze_upload click_record = false /\
  analyze_record click_record = false /\
  result (session (snd (rerun (Toy.lab Toy.toy_classifier) click_record seen_fake Toy.w0)))
    = result seen_fake /\
  mode (session (snd (rerun (Toy.lab Toy.toy_classifier) click_record seen_fake Toy.w0)))
    = Some "record"%string.
Proof.
  split; [reflexivity|]. split; [reflexivity|].
  rewrite (switching_mode_keeps_the_verdict (Toy.lab Toy.toy_classifier)
             click_record seen_fake Toy.w0); [|reflexivity|reflexivity].
  split; reflexivity.
Defined.

Lemma failed_analysis_keeps_the_verdict_witness :
  requested_analysis (Toy.lab Toy.crashing_classifier)
      (analyze_upload_of Toy.mono_clip) seen_fake
    = Some (process_audio_file (Toy.lab Toy.crashing_classifier) Toy.mono_clip) /\
  fst (rerun (Toy.lab Toy.crashing_classifier) (analyze_upload_of Toy.mono_clip)
             seen_fake Toy.w0)
    = Raised (Exception "RuntimeError" "model weights not found") /\
  result (session (snd (rerun (Toy.lab Toy.crashing_classifier)
                          (analyze_upload_of Toy.mono_clip) seen_fake Toy.w0)))
    = result seen_fake.
Proof.
  split; [reflexivity|].
  erewrite (failed_analysis_keeps_the_verdict (Toy.lab Toy.crashing_classifier)
              (analyze_upload_of Toy.mono_clip) seen_fake Toy.w0);
    [|reflexivity|vm_compute; reflexivity].
  split; reflexivity.
Defined.

Lemma analysis_panel_never_fails_witness :
  fst (rerun (Toy.lab Toy.crashing_classifier) (analyze_upload_of Toy.mono_clip)
         (fst (run_script (Toy.lab Toy.crashing_classifier)
                 [analyze_record_of Toy.mono_clip; click_record] empty_session Toy.w0))
         (snd (run_script (Toy.lab Toy.crashing_classifier)
                 [analyze_record_of Toy.mono_clip; click_record] empty_session Toy.w0)))
    = Raised (Exception "RuntimeError" "model weights not found") /\
  complete (stored_before
              (fst (run_script (Toy.lab Toy.crashing_classifier)
                      [analyze_record_of Toy.mono_clip; click_record]
                      empty_session Toy.w0))).
Proof.
  split; [vm_compute; reflexivity|].
  eapply (analysis_panel_never_fails (Toy.lab Toy.crashing_classifier)
            [analyze_record_of Toy.mono_clip; click_record]
            (analyze_upload_of Toy.mono_clip) Toy.w0).
  vm_compute. reflexivity.
Defined.

Lemma verdict_is_never_cleared_witness :
  has_result (stored_before seen_fake) = true /\
  has_result (stored_before
                (fst (run_script (Toy.lab Toy.crashing_classifier)
                        [click_record; analyze_upload_of Toy.mono_clip; idle]
                        seen_fake Toy.w0))) = true.
Proof.
  split; [reflexivity|].
  apply (verdict_is_never_cleared (Toy.lab Toy.crashing_classifier)). reflexivity.
Defined.

Lemma only_uploads_are_classified_witness :
  Forall (fun i => analyze_upload i = false)
         [analyze_record_of Toy.mono_clip; click_record; analyze_record_of Toy.garbage] /\
  existsb is_classify
    (calls (snd (run_script (Toy.lab Toy.toy_classifier)
                   [analyze_record_of Toy.mono_clip; click_record;
                    analyze_record_of Toy.garbage]
                   empty_session Toy.w0)))
    = existsb is_classify (calls Toy.w0).
Proof.
  assert (H : Forall (fun i => analyze_upload i = false)
                [analyze_record_of Toy.mono_clip; click_record;
                 analyze_record_of Toy.garbage]).
  { repeat constructor. }
  split; [exact H|].
  apply (only_uploads_are_classified (Toy.lab Toy.toy_classifier)). exact H.
Defined.

Lemma session_leaves_filesystem_unchanged_witness :
  fresh_directories careful /\
  Forall (fun i => stored_below careful (uploaded_file i) /\
                   stored_below careful (recorded_audio i))
         [analyze_upload_of Toy.mono_clip; analyze_record_of Toy.garbage;
          analyze_upload_of Toy.garbage] /\
  fs (snd (run_script careful
             [analyze_upload_of Toy.mono_clip; analyze_record_of Toy.garbage;
              analyze_upload_of Toy.garbage]
             empty_session Toy.w0))
    = fs Toy.w0.
Proof.
  assert (Hnames : Forall (fun i => stored_below careful (uploaded_file i) /\
                                    stored_below careful (recorded_audio i))
            [analyze_upload_of Toy.mono_clip; analyze_record_of Toy.garbage;
             analyze_upload_of Toy.garbage]).
  { repeat constructor; apply careful_stores_below; vm_compute; reflexivity. }
  split; [exact careful_is_fresh|]. split; [exact Hnames|].
  apply (session_leaves_filesystem_unchanged careful);
    [exact careful_is_fresh|exact Hnames].
Defined.

End Sessions.
